(** * Sales dashboard (app.py): the aggregation pipeline

    A shallow embedding of [load_data], [compute_summary], the top-N
    truncation and the top-products block of [app.py], and the properties
    of the specification that concern them.

    Modelling conventions.
    - A data frame is the list of its rows, in index order; a row is a
      record with one field per column read by the code.  A null cell
      (NaN, NaT, None) is [None].
    - The numeric columns hold exact rationals ([Qc]); rounding and
      overflow of float64 are outside the model.  The result of a series
      division is a [fval], which also has the infinities and NaN that
      pandas produces when the divisor is zero.
    - Time stamps are integers (nanoseconds since the epoch).
    - [DataFrame.sort_values] is called by the code with the default
      [kind], which pandas documents as not stable.  The embedding
      therefore takes the sort as any function that returns its argument
      rearranged in descending order of the key ([SortValues]); the
      insertion sort below is one such function.  [DataFrame.nlargest]
      is called with the default [keep="first"], which gives the first
      occurrences priority among rows of equal key when it selects fewer
      rows than the frame has; otherwise it sorts the column once more
      with the default [kind], and it refuses a column of dtype object.
    - [load_data] returns its frame or the exception it raises.  It is
      modelled column by column, as the code works.  A cell of the sheet
      is blank, a number, a text or a date; the parsers of pandas for
      numbers and dates written as text are parameters of the loader.
      The sheet is taken to have the columns [id], [order_date],
      [sku_id] and [sku_name]. *)

From Stdlib Require Import String Ascii List ZArith QArith Qcanon Bool Lia.
From Stdlib Require Import Permutation Sorted OrderedTypeEx.
Import ListNotations.

Local Open Scope string_scope.
Local Open Scope Qc_scope.

(** ** Numbers *)

(** A float64 value as far as the code can tell one from another: a
    finite number, an infinity with its sign, or NaN. *)
Inductive fval : Type :=
| Fin (q : Qc)
| Inf (positive : bool)
| NaN.

Definition money (z : Z) : Qc := Q2Qc (inject_Z z).

Definition Qc_of_nat (n : nat) : Qc := money (Z.of_nat n).

Definition Qc_ltb (a b : Qc) : bool := negb (Qle_bool b a).
Definition Qc_eqb (a b : Qc) : bool := Qeq_bool a b.

(** [series / series] of pandas, a float column by an integer column:
    division by zero gives an infinity, or NaN for 0/0, and no error. *)
Definition series_div (x : Qc) (n : nat) : fval :=
  match n with
  | O => if Qc_eqb x 0 then NaN else Inf (Qc_ltb 0 x)
  | S _ => Fin (x / Qc_of_nat n)
  end.

(** [np.where(cond, x, y)], element by element. *)
Definition np_where (cond : bool) (x y : fval) : fval :=
  if cond then x else y.

Definition fadd (a b : fval) : fval :=
  match a, b with
  | NaN, _ | _, NaN => NaN
  | Fin x, Fin y => Fin (x + y)
  | Inf s, Fin _ | Fin _, Inf s => Inf s
  | Inf s, Inf t => if Bool.eqb s t then Inf s else NaN
  end.

Definition is_nan (a : fval) : bool :=
  match a with NaN => true | _ => false end.

Definition fsum (l : list fval) : fval := fold_right fadd (Fin 0) l.

(** [Series.mean()], with its default [skipna=True]: NaN entries are left
    out, and the mean of nothing is 0/0, that is NaN. *)
Definition series_mean (l : list fval) : fval :=
  let present := filter (fun a => negb (is_nan a)) l in
  match fsum present with
  | Fin s => series_div s (length present)
  | other => other
  end.

Definition Qsum (l : list Qc) : Qc := fold_right Qcplus 0 l.

Definition nat_sum (l : list nat) : nat := fold_right Nat.add O l.

(** ** Rows of the loaded data frame *)

Definition Timestamp := Z.

Record Row : Type := mkRow {
  id          : option Z;
  order_date  : option Timestamp;
  category    : option string;
  sales_value : Qc;
  cogs        : Qc;
  net_profit  : Qc;
  sku_id      : option string;
  sku_name    : option string
}.

Definition DataFrame := list Row.

(** ** [sort_values(key, ascending=False)] *)

Definition descending {A : Type} (key : A -> Qc) (l : list A) : Prop :=
  StronglySorted (fun a b => (key b <= key a)%Qc) l.

Class SortValues : Type := {
  sort_values : forall A : Type, (A -> Qc) -> list A -> list A;
  sort_values_perm :
    forall (A : Type) (key : A -> Qc) (l : list A),
      Permutation l (sort_values A key l);
  sort_values_desc :
    forall (A : Type) (key : A -> Qc) (l : list A),
      descending key (sort_values A key l)
}.

Arguments sort_values {_} {A} key l.

(** A stable sort: an element goes behind the elements of strictly
    larger key and in front of all others, which come later in the
    frame. *)
Fixpoint insert_desc {A : Type} (key : A -> Qc) (x : A) (l : list A) : list A :=
  match l with
  | [] => [x]
  | y :: l' =>
      if Qc_ltb (key x) (key y) then y :: insert_desc key x l'
      else x :: l
  end.

Definition stable_sort_desc {A : Type} (key : A -> Qc) (l : list A) : list A :=
  fold_right (insert_desc key) [] l.

(** ** [compute_summary] *)

(** [d["order_date"] >= start_date]: a comparison with NaT is false. *)
Definition on_or_after (start_date : Timestamp) (r : Row) : bool :=
  match order_date r with
  | Some t => (start_date <=? t)%Z
  | None => false
  end.

Definition on_or_before (end_date : Timestamp) (r : Row) : bool :=
  match order_date r with
  | Some t => (t <=? end_date)%Z
  | None => false
  end.

(** [d["category"].isin(selected_categories)]: false on a null label. *)
Definition isin (selected : list string) (r : Row) : bool :=
  match category r with
  | Some c => existsb (String.eqb c) selected
  | None => false
  end.

(** Lines 30-33. [if start_date:] holds for every time stamp and fails
    for [None]. *)
Definition filter_dates (d : DataFrame) (start_date end_date : option Timestamp)
  : DataFrame :=
  let d1 := match start_date with
            | Some s => filter (on_or_after s) d
            | None => d
            end in
  match end_date with
  | Some e => filter (on_or_before e) d1
  | None => d1
  end.

(** Lines 34-35. *)
Definition filter_categories (d : DataFrame) (selected_categories : option (list string))
  : DataFrame :=
  match selected_categories with
  | Some (c :: cs) => filter (isin (c :: cs)) d
  | _ => d
  end.

(** The frame [d] that reaches [groupby]. *)
Definition selected_rows (df : DataFrame) (start_date end_date : option Timestamp)
    (selected_categories : option (list string)) : DataFrame :=
  filter_categories (filter_dates df start_date end_date) selected_categories.

(** The group keys of a [groupby]: the distinct keys in ascending order
    ([sort=True]). *)
Fixpoint insert_key {K : Type} (cmp : K -> K -> comparison) (k : K) (ks : list K)
  : list K :=
  match ks with
  | [] => [k]
  | k' :: ks' =>
      match cmp k k' with
      | Lt => k :: ks
      | Eq => ks
      | Gt => k' :: insert_key cmp k ks'
      end
  end.

(** A row whose key is null belongs to no group ([dropna=True]). *)
Definition keys_by {K : Type} (cmp : K -> K -> comparison) (key : Row -> option K)
    (d : DataFrame) : list K :=
  fold_right (fun r ks => match key r with
                          | Some k => insert_key cmp k ks
                          | None => ks
                          end) [] d.

(** The keys of [groupby("category")]. *)
Definition group_keys (d : DataFrame) : list string :=
  keys_by String.compare category d.

Definition in_category (k : string) (r : Row) : bool :=
  match category r with
  | Some c => String.eqb c k
  | None => false
  end.

Definition notnull {A : Type} (x : option A) : bool :=
  match x with Some _ => true | None => false end.

(** One row of the aggregated frame, before the AOV column is added. *)
Record Group : Type := mkGroup {
  g_category     : string;
  g_sales_value  : Qc;
  g_net_profit   : Qc;
  g_transactions : nat
}.

(** [agg(sales_value=sum, net_profit=sum, transactions=("id","count"))]
    for the rows of one group; [count] counts the non-null cells. *)
Definition aggregate (d : DataFrame) (k : string) : Group :=
  let rows := filter (in_category k) d in
  {| g_category     := k;
     g_sales_value  := Qsum (map sales_value rows);
     g_net_profit   := Qsum (map net_profit rows);
     g_transactions := length (filter (fun r => notnull (id r)) rows) |}.

Definition groupby_category (d : DataFrame) : list Group :=
  map (aggregate d) (group_keys d).

(** One row of the returned summary. *)
Record CategorySummary : Type := mkSummary {
  s_category     : string;
  s_sales_value  : Qc;
  s_net_profit   : Qc;
  s_transactions : nat;
  AOV            : fval
}.

(** Line 41. *)
Definition with_AOV (g : Group) : CategorySummary :=
  {| s_category     := g_category g;
     s_sales_value  := g_sales_value g;
     s_net_profit   := g_net_profit g;
     s_transactions := g_transactions g;
     AOV := np_where (Nat.ltb 0 (g_transactions g))
              (series_div (g_sales_value g) (g_transactions g))
              (Fin 0) |}.

Record Totals : Type := mkTotals {
  total_sales  : Qc;
  total_profit : Qc;
  avg_aov      : fval;
  transactions : nat
}.

Section Pipeline.

Context {sorter : SortValues}.

Definition compute_summary (df : DataFrame) (start_date end_date : option Timestamp)
    (selected_categories : option (list string)) : list CategorySummary * Totals :=
  let d := selected_rows df start_date end_date selected_categories in
  let summary := map with_AOV (sort_values g_sales_value (groupby_category d)) in
  let totals :=
    {| total_sales  := Qsum (map s_sales_value summary);
       total_profit := Qsum (map s_net_profit summary);
       avg_aov      := if Nat.ltb 0 (length summary)
                       then series_mean (map AOV summary)
                       else Fin 0;
       transactions := nat_sum (map s_transactions summary) |} in
  (summary, totals).

End Pipeline.

(** ** Top-N truncation (line 78) *)

(** The selection of [DataFrame.nlargest(n, key)] with its default
    [keep="first"] on a numeric column, when [n] is smaller than the
    number of rows: the [n] rows of largest key in descending order; among
    rows of equal key the first occurrences have priority, so such rows
    keep the order in which they occur.  The other cases of line 78 (a
    column that is not numeric, and an [n] that is not smaller than the
    number of rows) are in [displayed_summary] below. *)
Definition nlargest {A : Type} (n : nat) (key : A -> Qc) (l : list A) : list A :=
  firstn n (stable_sort_desc key l).

Definition topN (summary : list CategorySummary) (top_n : nat) : list CategorySummary :=
  nlargest top_n s_sales_value summary.

(** ** Top products (lines 167-173) *)

Definition sku_compare (a b : string * string) : comparison :=
  match String.compare (fst a) (fst b) with
  | Eq => String.compare (snd a) (snd b)
  | c => c
  end.

Definition sku_key (r : Row) : option (string * string) :=
  match sku_id r, sku_name r with
  | Some i, Some n => Some (i, n)
  | _, _ => None
  end.

(** [groupby(["sku_id", "sku_name"])]: a row with a null in either key
    column belongs to no group. *)
Definition sku_keys (d : DataFrame) : list (string * string) :=
  keys_by sku_compare sku_key d.

Definition has_sku (k : string * string) (r : Row) : bool :=
  match sku_key r with
  | Some (i, n) => String.eqb i (fst k) && String.eqb n (snd k)
  | None => false
  end.

Record ProductSummary : Type := mkProduct {
  p_sku_id       : string;
  p_sku_name     : string;
  p_sales_value  : Qc;
  p_transactions : nat
}.

Definition aggregate_sku (d : DataFrame) (k : string * string) : ProductSummary :=
  let rows := filter (has_sku k) d in
  {| p_sku_id       := fst k;
     p_sku_name     := snd k;
     p_sales_value  := Qsum (map sales_value rows);
     p_transactions := length (filter (fun r => notnull (id r)) rows) |}.

Definition groupby_sku (d : DataFrame) : list ProductSummary :=
  map (aggregate_sku d) (sku_keys d).

(** [if selected_categories:] holds for a non-empty list. *)
Definition filter_selected (d : DataFrame) (selected_categories : list string)
  : DataFrame :=
  match selected_categories with
  | [] => d
  | _ :: _ => filter (isin selected_categories) d
  end.

Section TopProducts.

Context {sorter : SortValues}.

Definition top_products (df : DataFrame) (selected_categories : list string)
  : list ProductSummary :=
  let prod := filter_selected df selected_categories in
  firstn 10 (sort_values p_sales_value (groupby_sku prod)).

End TopProducts.

(** ** [load_data] *)

(** A cell of the sheet as [pd.read_excel] returns it. *)
Inductive cell : Type :=
| CNull
| CNum (q : Qc)
| CStr (s : string)
| CTime (t : Timestamp).

(** A row of the sheet.  The sheet is taken to have the columns [id],
    [order_date], [sku_id] and [sku_name], which the script reads
    without a test (lines 60, 36-39 and 170); the columns [category],
    [after_discount] and [cogs] may be missing, and the field of a row
    for a missing column is never read. *)
Record RawRow : Type := mkRaw {
  raw_id             : option Z;
  raw_order_date     : cell;
  raw_category       : option string;
  raw_after_discount : cell;
  raw_cogs           : cell;
  raw_sku_id         : option string;
  raw_sku_name       : option string
}.

(** The sheet: the names of its columns and its rows. *)
Record RawFrame : Type := mkFrame {
  raw_columns : list string;
  raw_rows    : list RawRow
}.

Inductive Exception : Type :=
| KeyError (column : string)
| ValueError (text : string)
| TypeError.

Inductive result (A : Type) : Type :=
| Ok (a : A)
| Raise (e : Exception).

Arguments Ok {A} a.
Arguments Raise {A} e.

Definition bind {A B : Type} (m : result A) (f : A -> result B) : result B :=
  match m with
  | Ok a => f a
  | Raise e => Raise e
  end.

Notation "x <- m ;; k" := (bind m (fun x => k))
  (at level 61, m at next level, right associativity).

Fixpoint mapM {A B : Type} (f : A -> result B) (l : list A) : result (list B) :=
  match l with
  | [] => Ok []
  | a :: l' => b <- f a ;; bs <- mapM f l' ;; Ok (b :: bs)
  end.

Definition has_column (raw : RawFrame) (name : string) : bool :=
  existsb (String.eqb name) (raw_columns raw).

Definition require_column (raw : RawFrame) (name : string) : result unit :=
  if has_column raw name then Ok tt else Raise (KeyError name).

(** A cell after [fillna(0)]: no longer null. *)
Inductive filled : Type :=
| VNum (q : Qc)
| VStr (s : string)
| VTime (t : Timestamp).

Definition fillna0 (c : cell) : filled :=
  match c with
  | CNull => VNum 0
  | CNum q => VNum q
  | CStr s => VStr s
  | CTime t => VTime t
  end.

Definition is_date (c : cell) : bool :=
  match c with
  | CTime _ => true
  | _ => false
  end.

(** The integer that [pd.to_numeric] gives for a date: its time stamp. *)
Definition epoch_of (c : cell) : Qc :=
  match c with
  | CTime t => money t
  | _ => 0
  end.

(** [series - series] of line 25 on one row: a number less a number; a
    text or a date less a number raises. *)
Definition subtract (s : filled) (c : Qc) : result Qc :=
  match s with
  | VNum q => Ok (q - c)
  | VStr _ => Raise TypeError
  | VTime _ => Raise TypeError
  end.

Fixpoint subtract_columns (sales : list filled) (costs : list Qc) : result (list Qc) :=
  match sales, costs with
  | s :: sales', c :: costs' =>
      p <- subtract s c ;; ps <- subtract_columns sales' costs' ;; Ok (p :: ps)
  | _, _ => Ok []
  end.

(** The number in a cell of the sales column once line 25 has passed. *)
Definition number_of (s : filled) : Qc :=
  match s with
  | VNum q => q
  | _ => 0
  end.

(** The rows of the loaded frame, from its columns. *)
Fixpoint assemble (rows : list RawRow) (dates : list (option Timestamp))
    (labels : list (option string)) (sales : list filled) (costs profits : list Qc)
  : DataFrame :=
  match rows, dates, labels, sales, costs, profits with
  | r :: rows', d :: dates', l :: labels', s :: sales', c :: costs', p :: profits' =>
      {| id := raw_id r;
         order_date := d;
         category := l;
         sales_value := number_of s;
         cogs := c;
         net_profit := p;
         sku_id := raw_sku_id r;
         sku_name := raw_sku_name r |}
      :: assemble rows' dates' labels' sales' costs' profits'
  | _, _, _, _, _, _ => []
  end.

Section Loader.

(** The parsers of pandas for text and numbers, which are not part of
    the repository. *)
Variable parse_number : string -> option Qc.
Variable parse_datetime : string -> option Timestamp.
Variable datetime_of_number : Qc -> option Timestamp.

(** [pd.to_datetime(..., errors="coerce")]: what cannot be read as a
    time becomes NaT. *)
Definition to_datetime_coerce (c : cell) : option Timestamp :=
  match c with
  | CNull => None
  | CTime t => Some t
  | CStr s => parse_datetime s
  | CNum q => datetime_of_number q
  end.

(** [pd.to_numeric] on one cell of a column of mixed cells, with its
    default [errors="raise"]. *)
Definition to_numeric (c : filled) : result Qc :=
  match c with
  | VNum q => Ok q
  | VStr s => match parse_number s with
              | Some q => Ok q
              | None => Raise (ValueError s)
              end
  | VTime _ => Raise TypeError
  end.

(** Line 24, [pd.to_numeric(df["cogs"].fillna(0))].  A column that has
    rows and holds dates only is a datetime column: [fillna] leaves it as
    it is and [to_numeric] gives the time stamps.  Any other column is
    converted cell by cell, and the first cell that cannot be converted
    raises. *)
Definition to_numeric_column (col : list cell) : result (list Qc) :=
  match col with
  | [] => Ok []
  | _ :: _ =>
      if forallb is_date col then Ok (map epoch_of col)
      else mapM to_numeric (map fillna0 col)
  end.

(** [load_data], column by column.  Line 18 converts the dates (the
    test of line 17 holds for the sheets of the model); line 21 writes
    "Unknown" only when the sheet has no category column at all; line 22
    reads the sales column and fills its blank cells, line 24 reads the
    cost column and converts it, and line 25 subtracts the two. *)
Definition load_data (raw : RawFrame) : result DataFrame :=
  let rows := raw_rows raw in
  let dates := map (fun r => to_datetime_coerce (raw_order_date r)) rows in
  let labels := if negb (has_column raw "category")
                then map (fun _ => Some "Unknown") rows
                else map raw_category rows in
  _ <- require_column raw "after_discount" ;;
  let sales := map (fun r => fillna0 (raw_after_discount r)) rows in
  _ <- require_column raw "cogs" ;;
  costs <- to_numeric_column (map raw_cogs rows) ;;
  profits <- subtract_columns sales costs ;;
  Ok (assemble rows dates labels sales costs profits).

End Loader.

(** ** The displayed summary (line 78) *)

(** The dtype of the [sales_value] column.  [read_excel] gives the
    columns of a sheet without rows the dtype object, which [fillna], the
    sum of the groups and [sort_values] keep; the column of a frame that
    has rows holds numbers.  The column of the summary has the dtype of
    the column of the frame. *)
Inductive dtype : Type :=
| float64
| object.

Definition sales_dtype (df : DataFrame) : dtype :=
  match df with
  | [] => object
  | _ :: _ => float64
  end.

Section Display.

Context {sorter : SortValues}.

(** [summary.nlargest(top_n, "sales_value")] on the summary of the frame
    [df].  A column of dtype object is refused with a [TypeError].  When
    [top_n] is not smaller than the number of rows, pandas sorts the
    column once more in descending order, with the default [kind], and
    takes the head; otherwise it selects the rows as [nlargest] above. *)
Definition displayed_summary (df : DataFrame) (summary : list CategorySummary)
    (top_n : nat) : result (list CategorySummary) :=
  match sales_dtype df with
  | object => Raise TypeError
  | float64 =>
      if (length summary <=? top_n)%nat
      then Ok (firstn top_n (sort_values s_sales_value summary))
      else Ok (topN summary top_n)
  end.

End Display.

(** ** The words of the specification *)

(** The average order value of a group: sales value over transactions,
    0 for a group without transactions. *)
Definition aov_of (g : Group) : Qc :=
  match g_transactions g with
  | O => 0
  | S _ => g_sales_value g / Qc_of_nat (g_transactions g)
  end.

(** The arithmetic mean: the sum divided by the number of values, 0 for
    no value. *)
Definition arithmetic_mean (l : list Qc) : Qc :=
  match l with
  | [] => 0
  | _ :: _ => Qsum l / Qc_of_nat (length l)
  end.

(** The date condition: within the supplied bounds, both inclusive; a
    null date is within no bound. *)
Definition within (start_date end_date : option Timestamp) (r : Row) : bool :=
  match start_date, end_date, order_date r with
  | None, None, _ => true
  | _, _, None => false
  | Some s, None, Some t => (s <=? t)%Z
  | None, Some e, Some t => (t <=? e)%Z
  | Some s, Some e, Some t => (s <=? t)%Z && (t <=? e)%Z
  end.

Definition zero_totals : Totals :=
  {| total_sales := 0; total_profit := 0; avg_aov := Fin 0; transactions := 0 |}.

(** [a] comes strictly before [b] in the order of the group keys. *)
Definition precedes {K : Type} (cmp : K -> K -> comparison) (a b : K) : Prop :=
  cmp a b = Lt.


(** A row that records a sale of the product with the given id and
    name. *)
Definition sold_as (i n : string) (r : Row) : Prop :=
  sku_id r = Some i /\ sku_name r = Some n.

(** The rows of a frame that satisfy a property, in the order of the
    frame. *)
Inductive rows_where (P : Row -> Prop) : DataFrame -> DataFrame -> Prop :=
| rows_where_nil : rows_where P [] []
| rows_where_keep r d rows : P r -> rows_where P d rows -> rows_where P (r :: d) (r :: rows)
| rows_where_skip r d rows : ~ P r -> rows_where P d rows -> rows_where P (r :: d) rows.

(** The number of rows that have an id. *)
Fixpoint count_ids (rows : DataFrame) : nat :=
  match rows with
  | [] => 0
  | r :: rows' =>
      match id r with
      | Some _ => S (count_ids rows')
      | None => count_ids rows'
      end
  end.

(** ** Auxiliary definitions *)

(** The value of a finite float, 0 otherwise. *)
Definition finite_part (a : fval) : Qc :=
  match a with
  | Fin q => q
  | _ => 0
  end.

(** A row with its order date replaced. *)
Definition with_order_date (f : Row -> option Timestamp) (r : Row) : Row :=
  {| id := id r; order_date := f r; category := category r;
     sales_value := sales_value r; cogs := cogs r; net_profit := net_profit r;
     sku_id := sku_id r; sku_name := sku_name r |}.

(** A summary row and the totals with their numbers as plain fractions. *)
Definition shown (row : CategorySummary) : string * Q * Q * nat * Q :=
  (s_category row, this (s_sales_value row), this (s_net_profit row),
   s_transactions row, this (finite_part (AOV row))).

Definition shown_totals (t : Totals) : Q * Q * Q * nat :=
  (this (total_sales t), this (total_profit t), this (finite_part (avg_aov t)),
   transactions t).

(** A parser that reads unsigned decimal integers and nothing else. *)
Fixpoint digits_value (s : string) (acc : Z) : option Z :=
  match s with
  | EmptyString => Some acc
  | String c s' =>
      let n := Z.of_nat (nat_of_ascii c) in
      if ((48 <=? n) && (n <=? 57))%Z
      then digits_value s' (10 * acc + (n - 48))%Z
      else None
  end.

Definition parse_digits (s : string) : option Qc :=
  match s with
  | EmptyString => None
  | String _ _ => option_map money (digits_value s 0%Z)
  end.

(** Parsers that read no text and no number as a date. *)
Definition no_date (s : string) : option Timestamp := None.
Definition no_date_of_number (q : Qc) : option Timestamp := None.

(** ** Sample frames *)

(** Midnight of the given day, counted from 1970-01-01. *)
Definition day (n : Z) : Timestamp := (n * 86400000000000)%Z.

Definition sale (i : option Z) (date : option Timestamp) (cat : option string)
    (sales cost : Z) (sku name : string) : Row :=
  {| id := i; order_date := date; category := cat;
     sales_value := money sales; cogs := money cost;
     net_profit := money sales - money cost;
     sku_id := Some sku; sku_name := Some name |}.

(** The three rows of the scenario of the specification: 2023-01-05,
    2023-02-10 and 2023-01-20. *)
Definition scenario : DataFrame :=
  [ sale (Some 1%Z) (Some (day 19362)) (Some "A") 100 40 "p1" "pen";
    sale (Some 2%Z) (Some (day 19398)) (Some "A") 50 10 "p2" "ink";
    sale (Some 3%Z) (Some (day 19377)) (Some "B") 200 150 "p3" "desk" ].

(** Two sales of one category, the second without an identifier. *)
Definition missing_id : DataFrame :=
  [ sale (Some 1%Z) (Some (day 19362)) (Some "A") 100 40 "p1" "pen";
    sale None (Some (day 19363)) (Some "A") 50 10 "p1" "pen" ].

(** One sale without an identifier. *)
Definition no_id : DataFrame :=
  [ sale None (Some (day 19362)) (Some "A") 100 40 "p1" "pen" ].


Definition all_columns : list string :=
  ["id"; "order_date"; "category"; "after_discount"; "cogs"; "sku_id"; "sku_name"].



(** A row with neither a sales value nor a cost, and the sheet that holds
    only this row. *)
Definition blank_amounts : RawRow :=
  {| raw_id := Some 1%Z; raw_order_date := CTime (day 19362);
     raw_category := Some "A"; raw_after_discount := CNull;
     raw_cogs := CNull;
     raw_sku_id := Some "p1"; raw_sku_name := Some "pen" |}.

Definition sheet_blank_amounts : RawFrame :=
  {| raw_columns := all_columns; raw_rows := [blank_amounts] |}.


(** A sheet with a category column, in which the label of the only row
    is blank. *)
Definition sheet_blank_label : RawFrame :=
  {| raw_columns := all_columns;
     raw_rows :=
       [ {| raw_id := Some 1%Z; raw_order_date := CTime (day 19362);
            raw_category := None; raw_after_discount := CNum (money 100);
            raw_cogs := CNum (money 40);
            raw_sku_id := Some "p1"; raw_sku_name := Some "pen" |} ] |}.

(** ** The sidebar (lines 60-75) *)

Definition ns_per_day : Z := 86400000000000.

(** [pd.to_datetime(t.date())]: midnight of the day of [t]. *)
Definition midnight (t : Timestamp) : Timestamp := (t / ns_per_day * ns_per_day)%Z.

(** [Series.min()] and [Series.max()] of a column of dates: null cells
    are skipped, and the result is null when there is no other cell. *)
Fixpoint series_min (col : list (option Z)) : option Z :=
  match col with
  | [] => None
  | None :: col' => series_min col'
  | Some t :: col' =>
      match series_min col' with
      | Some m => Some (Z.min t m)
      | None => Some t
      end
  end.

Fixpoint series_max (col : list (option Z)) : option Z :=
  match col with
  | [] => None
  | None :: col' => series_max col'
  | Some t :: col' =>
      match series_max col' with
      | Some m => Some (Z.max t m)
      | None => Some t
      end
  end.

(** [Series.notna().any()]. *)
Definition notna_any {A : Type} (col : list (option A)) : bool :=
  existsb notnull col.

(** Lines 60-61; the defaults are 2020-01-01 and 2023-12-31. *)
Definition min_date (df : DataFrame) : option Timestamp :=
  let col := map order_date df in
  if notna_any col then series_min col else Some (day 18262).

Definition max_date (df : DataFrame) : option Timestamp :=
  let col := map order_date df in
  if notna_any col then series_max col else Some (day 19722).

(** The range that the date widget of line 63 is given as its value, and
    returns when it is left alone, as line 75 converts it. *)
Definition default_range (df : DataFrame) : option Timestamp * option Timestamp :=
  (option_map midnight (min_date df), option_map midnight (max_date df)).

(** [Series.fillna("Unknown")] on one label. *)
Definition fillna_unknown (c : option string) : string :=
  match c with
  | Some s => s
  | None => "Unknown"
  end.

(** [Series.unique()]: the distinct values in order of first occurrence. *)
Fixpoint unique (l : list string) : list string :=
  match l with
  | [] => []
  | x :: l' => x :: filter (fun y => negb (String.eqb x y)) (unique l')
  end.

(** [sorted] on a list of strings. *)
Fixpoint insert_sorted (x : string) (l : list string) : list string :=
  match l with
  | [] => [x]
  | y :: l' => if String.leb x y then x :: l else y :: insert_sorted x l'
  end.

Definition sorted (l : list string) : list string :=
  fold_right insert_sorted [] l.

(** Line 68: the options of the category widget, which are also its
    default selection (line 69). *)
Definition all_categories (df : DataFrame) : list string :=
  sorted (unique (map fillna_unknown (map category df))).

(** ** The monthly trend (lines 142-147) *)

(** Lines 142-145. *)
Definition trend_rows (df : DataFrame) (start_date end_date : Timestamp)
    (selected_categories : list string) : DataFrame :=
  let ts := filter (fun r => on_or_after start_date r && on_or_before end_date r) df in
  filter_selected ts selected_categories.

Record MonthRow : Type := mkMonth {
  m_month       : Z;
  m_sales_value : Qc;
  m_net_profit  : Qc
}.

(** The months from [lo] to [hi], both included. *)
Definition months_between (lo hi : Z) : list Z :=
  map (fun i => (lo + Z.of_nat i)%Z) (seq 0 (Z.to_nat (hi - lo + 1))).

Section Trend.

(** The calendar month of a time stamp, counted from some fixed month;
    the calendar is that of pandas. *)
Variable month_of : Timestamp -> Z.

Definition row_month (r : Row) : option Z := option_map month_of (order_date r).

Definition in_month (m : Z) (r : Row) : bool :=
  match row_month r with
  | Some m' => (m' =? m)%Z
  | None => false
  end.

(** [set_index("order_date").resample("M").agg(sum)]: one row for every
    month from that of the first date to that of the last, with the sums
    over the rows of the month, 0 for a month without rows. *)
Definition resample_monthly (ts : DataFrame) : list MonthRow :=
  match series_min (map row_month ts), series_max (map row_month ts) with
  | Some lo, Some hi =>
      map (fun m => {| m_month := m;
                       m_sales_value := Qsum (map sales_value (filter (in_month m) ts));
                       m_net_profit := Qsum (map net_profit (filter (in_month m) ts)) |})
          (months_between lo hi)
  | _, _ => []
  end.

(** Lines 142-153: the series of the chart, or nothing when no row is
    left ([ts.empty]) and the note is shown instead. *)
Definition monthly_trend (df : DataFrame) (start_date end_date : Timestamp)
    (selected_categories : list string) : option (list MonthRow) :=
  let ts := trend_rows df start_date end_date selected_categories in
  match ts with
  | [] => None
  | _ :: _ => Some (resample_monthly ts)
  end.

End Trend.


(** The number in a cell that is blank or a number, 0 for a blank one. *)
Definition sales_or_zero (v : cell) : Qc :=
  match v with
  | CNum q => q
  | _ => 0
  end.

(** A cell that is blank or a number. *)
Definition is_amount (c : cell) : bool :=
  match c with
  | CNull => true
  | CNum _ => true
  | _ => false
  end.


(** A row satisfies the invariant of the loader when its net profit is
    its sales value less its cost. *)
Definition profit_consistent (r : Row) : Prop :=
  net_profit r = sales_value r - cogs r.

Definition dated (r : Row) : bool := notnull (order_date r).

Definition labelled (r : Row) : bool := notnull (category r).

(** The frame that [sheet_blank_amounts] loads as. *)
Definition loaded_blank_amounts : DataFrame :=
  [ {| id := Some 1%Z; order_date := Some (day 19362); category := Some "A";
       sales_value := 0; cogs := 0; net_profit := 0 - 0;
       sku_id := Some "p1"; sku_name := Some "pen" |} ].

(** A sale late on the last day of a frame. *)
Definition late_sale : DataFrame :=
  [ sale (Some 1%Z) (Some (day 19362)) (Some "A") 100 40 "p1" "pen";
    sale (Some 2%Z) (Some (day 19363 + 3600000000000)%Z) (Some "A") 50 10 "p2" "ink" ].

(** A sale without a category label. *)
Definition unlabelled_sale : DataFrame :=
  [ sale (Some 1%Z) (Some (day 19362)) (Some "A") 100 40 "p1" "pen";
    sale (Some 2%Z) (Some (day 19363)) None 50 10 "p2" "ink" ].

(** One sale, without a category label. *)
Definition only_unlabelled : DataFrame :=
  [ sale (Some 2%Z) (Some (day 19363)) None 50 10 "p2" "ink" ].

(** A sale without an order date. *)
Definition undated_sale : DataFrame :=
  [ sale (Some 1%Z) (Some (day 19362)) (Some "A") 100 40 "p1" "pen";
    sale (Some 2%Z) None (Some "A") 50 10 "p2" "ink" ].

(** * Properties *)

(** ** Order on the keys *)

Lemma Qc_ltb_true (a b : Qc) : Qc_ltb a b = true <-> a < b.
Proof.
  unfold Qc_ltb. rewrite negb_true_iff.
  split; intro H.
  - apply Qcnot_le_lt. intro Hle. apply Qle_bool_iff in Hle. congruence.
  - destruct (Qle_bool b a) eqn:E; [|reflexivity].
    apply Qle_bool_iff in E. now apply Qclt_not_le in H.
Qed.

Lemma Qc_ltb_false (a b : Qc) : Qc_ltb a b = false <-> b <= a.
Proof.
  unfold Qc_ltb. rewrite negb_false_iff. apply Qle_bool_iff.
Qed.

(** ** The stable sort meets the contract of [sort_values] *)

Lemma insert_desc_perm {A : Type} (key : A -> Qc) (x : A) (l : list A) :
  Permutation (x :: l) (insert_desc key x l).
Proof.
  induction l as [|y l IH]; simpl.
  - reflexivity.
  - destruct (Qc_ltb (key x) (key y)).
    + rewrite perm_swap. now apply perm_skip.
    + reflexivity.
Qed.

Lemma stable_sort_desc_perm {A : Type} (key : A -> Qc) (l : list A) :
  Permutation l (stable_sort_desc key l).
Proof.
  induction l as [|x l IH]; simpl.
  - constructor.
  - rewrite <- insert_desc_perm. now apply perm_skip.
Qed.

Lemma insert_desc_sorted {A : Type} (key : A -> Qc) (x : A) (l : list A) :
  descending key l -> descending key (insert_desc key x l).
Proof.
  unfold descending.
  induction l as [|y l IH]; simpl; intro Hs.
  - constructor; [constructor | constructor].
  - inversion Hs as [|? ? Hl Hy]; subst.
    destruct (Qc_ltb (key x) (key y)) eqn:E.
    + constructor; [now apply IH|].
      apply Qc_ltb_true in E.
      rewrite <- (insert_desc_perm key x l).
      constructor; [now apply Qclt_le_weak | assumption].
    + apply Qc_ltb_false in E.
      constructor; [assumption|].
      constructor; [assumption|].
      eapply Forall_impl; [|exact Hy].
      intros z Hz. simpl in Hz. now apply Qcle_trans with (key y).
Qed.

Lemma stable_sort_desc_sorted {A : Type} (key : A -> Qc) (l : list A) :
  descending key (stable_sort_desc key l).
Proof.
  induction l as [|x l IH]; simpl.
  - constructor.
  - now apply insert_desc_sorted.
Qed.

#[export] Instance stable_sorter : SortValues := {|
  sort_values := fun A key l => stable_sort_desc key l;
  sort_values_perm := fun A key l => stable_sort_desc_perm key l;
  sort_values_desc := fun A key l => stable_sort_desc_sorted key l
|}.

(** A frame that is already in descending order is left as it is. *)
Lemma stable_sort_desc_id {A : Type} (key : A -> Qc) (l : list A) :
  descending key l -> stable_sort_desc key l = l.
Proof.
  unfold descending.
  induction l as [|x l IH]; simpl; intro Hs; [reflexivity|].
  inversion Hs as [|? ? Hl Hx]; subst.
  rewrite (IH Hl).
  destruct l as [|y l']; [reflexivity|]. simpl.
  inversion Hx as [|? ? Hy _]; subst.
  apply Qc_ltb_false in Hy. now rewrite Hy.
Qed.

Lemma in_firstn {A : Type} (n : nat) (l : list A) (x : A) :
  In x (firstn n l) -> In x l.
Proof.
  revert n. induction l as [|y l IH]; intros [|n]; simpl; try tauto.
  intros [H|H]; [now left | right; eauto].
Qed.

Lemma descending_firstn {A : Type} (key : A -> Qc) (n : nat) (l : list A) :
  descending key l -> descending key (firstn n l).
Proof.
  unfold descending. revert n.
  induction l as [|x l IH]; intros [|n] Hs; simpl; try constructor.
  - inversion Hs; subst. now apply IH.
  - inversion Hs as [|? ? _ Hx]; subst.
    rewrite Forall_forall in *. intros y Hy. apply Hx.
    eapply in_firstn. exact Hy.
Qed.

(** ** Facts about any [sort_values] *)

Section AnySort.

Context {sorter : SortValues}.

Lemma sort_values_nil {A : Type} (key : A -> Qc) : sort_values key [] = [].
Proof.
  apply Permutation_nil, sort_values_perm.
Qed.

Lemma sort_values_In {A : Type} (key : A -> Qc) (l : list A) (x : A) :
  In x (sort_values key l) <-> In x l.
Proof.
  split; apply Permutation_in;
    [symmetry|]; apply sort_values_perm.
Qed.

Lemma sort_values_length {A : Type} (key : A -> Qc) (l : list A) :
  length (sort_values key l) = length l.
Proof.
  symmetry. apply Permutation_length, sort_values_perm.
Qed.

Lemma sort_values_single {A : Type} (key : A -> Qc) (x : A) :
  sort_values key [x] = [x].
Proof.
  apply Permutation_length_1_inv, sort_values_perm.
Qed.

End AnySort.

Lemma Qsum_perm (l l' : list Qc) : Permutation l l' -> Qsum l = Qsum l'.
Proof.
  induction 1; simpl; try congruence.
  rewrite !Qcplus_assoc. f_equal. apply Qcplus_comm.
Qed.

Lemma nat_sum_perm (l l' : list nat) : Permutation l l' -> nat_sum l = nat_sum l'.
Proof.
  induction 1; simpl; lia.
Qed.

(** ** The keys of a [groupby] *)

Section Keys.

Variable K : Type.
Variable cmp : K -> K -> comparison.
Hypothesis cmp_eq : forall a b, cmp a b = Eq <-> a = b.
Hypothesis cmp_antisym : forall a b, cmp a b = CompOpp (cmp b a).
Hypothesis cmp_trans : forall a b c, cmp a b = Lt -> cmp b c = Lt -> cmp a c = Lt.

Lemma cmp_gt_lt a b : cmp a b = Gt -> cmp b a = Lt.
Proof.
  intro H. rewrite cmp_antisym, H. reflexivity.
Qed.

Lemma cmp_irrefl a : cmp a a <> Lt.
Proof.
  assert (H : cmp a a = Eq) by now apply cmp_eq.
  congruence.
Qed.

Lemma insert_key_In k ks x :
  In x (insert_key cmp k ks) <-> x = k \/ In x ks.
Proof.
  induction ks as [|k' ks IH]; simpl.
  - intuition.
  - destruct (cmp k k') eqn:E; simpl.
    + apply cmp_eq in E. subst k'. intuition.
    + intuition.
    + rewrite IH. intuition.
Qed.

Lemma insert_key_sorted k ks :
  StronglySorted (precedes cmp) ks -> StronglySorted (precedes cmp) (insert_key cmp k ks).
Proof.
  induction ks as [|k' ks IH]; simpl; intro Hs.
  - repeat constructor.
  - inversion Hs as [|? ? Hks Hk']; subst.
    destruct (cmp k k') eqn:E.
    + exact Hs.
    + constructor; [exact Hs|].
      constructor; [exact E|].
      eapply Forall_impl; [|exact Hk'].
      intros z Hz. now apply cmp_trans with k'.
    + constructor; [now apply IH|].
      rewrite Forall_forall in *. intros z Hz.
      apply insert_key_In in Hz. destruct Hz as [->|Hz].
      * now apply cmp_gt_lt.
      * now apply Hk'.
Qed.

Lemma keys_by_sorted (key : Row -> option K) d :
  StronglySorted (precedes cmp) (keys_by cmp key d).
Proof.
  induction d as [|r d IH]; simpl.
  - constructor.
  - destruct (key r); [now apply insert_key_sorted | exact IH].
Qed.

Lemma keys_by_In (key : Row -> option K) d k :
  In k (keys_by cmp key d) <-> exists r, In r d /\ key r = Some k.
Proof.
  induction d as [|r d IH]; simpl.
  - split; [tauto | intros (r & [] & _)].
  - destruct (key r) as [k'|] eqn:E.
    + rewrite insert_key_In, IH. split.
      * intros [->|(r' & Hr' & Hk)]; eauto.
      * intros (r' & [<-|Hr'] & Hk); [left; congruence | right; eauto].
    + rewrite IH. split.
      * intros (r' & Hr' & Hk); eauto.
      * intros (r' & [<-|Hr'] & Hk); [congruence | eauto].
Qed.

(** An ascending list without repetition is determined by its elements. *)
Lemma sorted_keys_unique l l' :
  StronglySorted (precedes cmp) l -> StronglySorted (precedes cmp) l' ->
  (forall x, In x l <-> In x l') -> l = l'.
Proof.
  intro Hl. revert l'.
  induction Hl as [|a l Hl IH Ha]; intros l' Hl' Hiff.
  - destruct l' as [|b l']; [reflexivity|].
    exfalso. apply (Hiff b). now left.
  - destruct Hl' as [|b l' Hl' Hb].
    { exfalso. apply (Hiff a). now left. }
    rewrite Forall_forall in Ha, Hb.
    assert (Hab : a = b).
    { destruct (proj1 (Hiff a) (or_introl eq_refl)) as [Hba|Hin]; [auto|].
      destruct (proj2 (Hiff b) (or_introl eq_refl)) as [Hab|Hin']; [auto|].
      exfalso. apply (cmp_irrefl a).
      apply cmp_trans with b; [now apply Ha | now apply Hb]. }
    subst b. f_equal. apply IH; [exact Hl'|].
    intro x. split; intro Hx.
    + destruct (proj1 (Hiff x) (or_intror Hx)) as [<-|Hin]; [|exact Hin].
      exfalso. apply (cmp_irrefl a). now apply Ha.
    + destruct (proj2 (Hiff x) (or_intror Hx)) as [<-|Hin]; [|exact Hin].
      exfalso. apply (cmp_irrefl a). now apply Hb.
Qed.

Lemma keys_by_perm (key : Row -> option K) d d' :
  Permutation d d' -> keys_by cmp key d = keys_by cmp key d'.
Proof.
  intro Hp. apply sorted_keys_unique; try apply keys_by_sorted.
  intro k. rewrite !keys_by_In.
  split; intros (r & Hr & Hk); exists r; split; try exact Hk.
  - now apply Permutation_in with d.
  - apply Permutation_in with d'; [now symmetry | exact Hr].
Qed.

Lemma sorted_keys_NoDup l : StronglySorted (precedes cmp) l -> NoDup l.
Proof.
  induction 1 as [|a l Hl IH Ha]; constructor; [|exact IH].
  intro Hin. rewrite Forall_forall in Ha.
  apply (cmp_irrefl a). now apply Ha.
Qed.

End Keys.

Lemma string_compare_eq a b : String.compare a b = Eq <-> a = b.
Proof. apply String_as_OT.cmp_eq. Qed.

Lemma string_compare_trans a b c :
  String.compare a b = Lt -> String.compare b c = Lt -> String.compare a c = Lt.
Proof.
  intros H1 H2. apply String_as_OT.cmp_lt.
  apply String_as_OT.lt_trans with b; now apply String_as_OT.cmp_lt.
Qed.

Lemma sku_compare_eq a b : sku_compare a b = Eq <-> a = b.
Proof.
  destruct a as [a1 a2], b as [b1 b2]. unfold sku_compare; simpl.
  destruct (String.compare a1 b1) eqn:E.
  - apply string_compare_eq in E. subst b1.
    rewrite string_compare_eq. split; congruence.
  - split; [discriminate|]. intro H. injection H as -> ->.
    assert (String.compare b1 b1 = Eq) by now apply string_compare_eq.
    congruence.
  - split; [discriminate|]. intro H. injection H as -> ->.
    assert (String.compare b1 b1 = Eq) by now apply string_compare_eq.
    congruence.
Qed.

Lemma sku_compare_antisym a b : sku_compare a b = CompOpp (sku_compare b a).
Proof.
  destruct a as [a1 a2], b as [b1 b2]. unfold sku_compare; simpl.
  rewrite (String.compare_antisym a1 b1), (String.compare_antisym a2 b2).
  destruct (String.compare b1 a1); reflexivity.
Qed.

Lemma sku_compare_trans a b c :
  sku_compare a b = Lt -> sku_compare b c = Lt -> sku_compare a c = Lt.
Proof.
  destruct a as [a1 a2], b as [b1 b2], c as [c1 c2].
  unfold sku_compare; simpl.
  destruct (String.compare a1 b1) eqn:E1; try discriminate;
    destruct (String.compare b1 c1) eqn:E2; try discriminate; intros H1 H2.
  - apply string_compare_eq in E1, E2. subst.
    assert (E : String.compare c1 c1 = Eq) by now apply string_compare_eq.
    rewrite E. now apply string_compare_trans with b2.
  - apply string_compare_eq in E1. subst. now rewrite E2.
  - apply string_compare_eq in E2. subst. now rewrite E1.
  - now rewrite (string_compare_trans _ _ _ E1 E2).
Qed.

(** ** The summary rows *)

Lemma AOV_with_AOV (g : Group) : AOV (with_AOV g) = Fin (aov_of g).
Proof.
  unfold with_AOV, aov_of, np_where, series_div; simpl.
  destruct (g_transactions g); reflexivity.
Qed.

Section Summary.

Context {sorter : SortValues}.

Lemma summary_row df start_date end_date selected (s : CategorySummary) :
  In s (fst (compute_summary df start_date end_date selected)) ->
  exists k,
    In k (group_keys (selected_rows df start_date end_date selected)) /\
    s = with_AOV (aggregate (selected_rows df start_date end_date selected) k).
Proof.
  unfold compute_summary; simpl.
  rewrite in_map_iff. intros (g & <- & Hg).
  apply sort_values_In in Hg.
  unfold groupby_category in Hg. apply in_map_iff in Hg.
  destruct Hg as (k & <- & Hk). eauto.
Qed.

Lemma no_rows_no_summary df start_date end_date selected :
  selected_rows df start_date end_date selected = [] ->
  compute_summary df start_date end_date selected = ([], zero_totals).
Proof.
  intro Hd. unfold compute_summary. rewrite Hd.
  change (groupby_category []) with (@nil Group).
  rewrite sort_values_nil. reflexivity.
Qed.

(** Two groups of different sales value come out in one order only. *)
Lemma sort_values_two {A : Type} (key : A -> Qc) (a b : A) :
  key a < key b -> sort_values key [a; b] = [b; a].
Proof.
  intro Hlt.
  pose proof (sort_values_perm A key [a; b]) as Hp.
  pose proof (sort_values_desc A key [a; b]) as Hs.
  apply Permutation_length_2_inv in Hp. destruct Hp as [E|E]; [|exact E].
  rewrite E in Hs. inversion Hs as [|? ? _ Hab]; subst.
  inversion Hab as [|? ? Hle _]; subst.
  now apply Qclt_not_le in Hlt.
Qed.

End Summary.

Lemma arithmetic_mean_perm (l l' : list Qc) :
  Permutation l l' -> arithmetic_mean l = arithmetic_mean l'.
Proof.
  intro Hp. unfold arithmetic_mean.
  rewrite (Qsum_perm _ _ Hp), (Permutation_length Hp).
  destruct l as [|x l]; destruct l' as [|y l']; try reflexivity;
    simpl in Hp; apply Permutation_length in Hp; discriminate.
Qed.

Lemma filter_finite (l : list Qc) :
  filter (fun a => negb (is_nan a)) (map Fin l) = map Fin l.
Proof.
  induction l as [|x l IH]; simpl; [reflexivity | now rewrite IH].
Qed.

Lemma fsum_finite (l : list Qc) : fsum (map Fin l) = Fin (Qsum l).
Proof.
  induction l as [|x l IH]; [reflexivity|].
  change (fadd (Fin x) (fsum (map Fin l)) = Fin (x + Qsum l)).
  now rewrite IH.
Qed.

Lemma series_mean_finite (l : list Qc) :
  series_mean (map Fin l) = match l with
                            | [] => NaN
                            | _ :: _ => Fin (arithmetic_mean l)
                            end.
Proof.
  unfold series_mean.
  rewrite filter_finite, fsum_finite, length_map.
  destruct l as [|x l]; reflexivity.
Qed.

Section Totals.

Context {sorter : SortValues}.

(** The totals in terms of the groups, whatever the sort does. *)
Lemma totals_of_groups df start_date end_date selected :
  let groups := groupby_category (selected_rows df start_date end_date selected) in
  snd (compute_summary df start_date end_date selected) =
  {| total_sales  := Qsum (map g_sales_value groups);
     total_profit := Qsum (map g_net_profit groups);
     avg_aov      := Fin (arithmetic_mean (map aov_of groups));
     transactions := nat_sum (map g_transactions groups) |}.
Proof.
  intro groups. unfold compute_summary; simpl. fold groups.
  pose proof (sort_values_perm Group g_sales_value groups) as Hp.
  rewrite !map_map; simpl.
  rewrite (map_ext _ _ AOV_with_AOV).
  rewrite <- (map_map aov_of Fin), series_mean_finite.
  rewrite length_map.
  f_equal.
  - change (fun g => s_sales_value (with_AOV g)) with g_sales_value.
    symmetry. now apply Qsum_perm, Permutation_map.
  - change (fun g => s_net_profit (with_AOV g)) with g_net_profit.
    symmetry. now apply Qsum_perm, Permutation_map.
  - rewrite (arithmetic_mean_perm _ _ (Permutation_map aov_of Hp)).
    destruct (sort_values g_sales_value groups) as [|g l]; reflexivity.
  - change (fun g => s_transactions (with_AOV g)) with g_transactions.
    symmetry. now apply nat_sum_perm, Permutation_map.
Qed.

End Totals.

(** ** C1, C2: the totals *)

Section Claims.

Context {sorter : SortValues}.

(** C1. The totals returned by [compute_summary] are the column sums of
    the summary it returns, which is the full summary: total sales is the
    sum of [sales_value], total profit the sum of [net_profit], and the
    transaction total the sum of the per-category counts.  The sums are
    taken before the truncation to the top N: on the scenario frame they
    differ from the sums over the top row alone. *)
Theorem totals_sum_summary_rows :
  (forall df start_date end_date selected,
     let summary := fst (compute_summary df start_date end_date selected) in
     let totals := snd (compute_summary df start_date end_date selected) in
     total_sales totals = Qsum (map s_sales_value summary) /\
     total_profit totals = Qsum (map s_net_profit summary) /\
     transactions totals = nat_sum (map s_transactions summary)) /\
  (exists df,
     let summary := fst (compute_summary df None None None) in
     let totals := snd (compute_summary df None None None) in
     total_sales totals <> Qsum (map s_sales_value (topN summary 1)) /\
     total_profit totals <> Qsum (map s_net_profit (topN summary 1)) /\
     transactions totals <> nat_sum (map s_transactions (topN summary 1))).
Proof.
  split.
  - intros df start_date end_date selected.
    unfold compute_summary; simpl. repeat split.
  - exists scenario. cbv zeta.
    rewrite totals_of_groups. cbn [total_sales total_profit transactions].
    unfold compute_summary; cbn [fst].
    change (groupby_category (selected_rows scenario None None None))
      with [aggregate scenario "A"; aggregate scenario "B"].
    rewrite sort_values_two by (apply Qc_ltb_true; reflexivity).
    repeat split; intro H;
      try (apply (f_equal this) in H); vm_compute in H; discriminate.
Qed.

(** C2. The average AOV of the totals is the unweighted arithmetic mean
    of the AOV values of the summary rows, all of which are finite, and 0
    for an empty summary.  It is not the ratio of total sales to total
    transactions: on the scenario frame, whose categories have two and
    one transactions, the mean is 137.5 and the ratio 350/3. *)
Theorem avg_aov_is_mean_of_category_AOV :
  (forall df start_date end_date selected,
     let summary := fst (compute_summary df start_date end_date selected) in
     let totals := snd (compute_summary df start_date end_date selected) in
     let aovs := map (fun row => finite_part (AOV row)) summary in
     map AOV summary = map Fin aovs /\
     avg_aov totals = Fin (arithmetic_mean aovs) /\
     (summary = [] -> avg_aov totals = Fin 0)) /\
  (exists df,
     let totals := snd (compute_summary df None None None) in
     map g_transactions (groupby_category df) = [2; 1]%nat /\
     avg_aov totals = Fin (Q2Qc (275 # 2)) /\
     total_sales totals / Qc_of_nat (transactions totals) = Q2Qc (350 # 3) /\
     avg_aov totals <>
       Fin (total_sales totals / Qc_of_nat (transactions totals))).
Proof.
  split.
  - intros df start_date end_date selected summary totals aovs.
    assert (Hfin : map AOV summary = map Fin aovs).
    { subst aovs summary. unfold compute_summary; simpl.
      rewrite !map_map. apply map_ext. intro g.
      now rewrite AOV_with_AOV. }
    split; [exact Hfin|].
    assert (Hmean : avg_aov totals = Fin (arithmetic_mean aovs)).
    { change (avg_aov totals)
        with (if Nat.ltb 0 (length summary)
              then series_mean (map AOV summary) else Fin 0).
      rewrite Hfin, series_mean_finite.
      subst aovs. destruct summary; reflexivity. }
    split; [exact Hmean|].
    intro Hnil. rewrite Hmean. subst aovs. now rewrite Hnil.
  - exists scenario. cbv zeta.
    rewrite totals_of_groups. cbn [avg_aov total_sales transactions].
    split; [reflexivity|].
    split; [f_equal; apply Qc_is_canon; vm_compute; reflexivity|].
    split; [apply Qc_is_canon; vm_compute; reflexivity|].
    intro H. assert (Hq : forall a b, Fin a = Fin b -> this a = this b)
      by (intros a b Hab; now injection Hab as ->).
    apply Hq in H. vm_compute in H. discriminate.
Qed.

(** ** C6: the guarded division *)

(** C6. In every row of the summary the AOV is a finite number:
    [sales_value / transactions] when the row has transactions, and
    exactly 0 when it has none. *)
Theorem AOV_division_is_guarded df start_date end_date selected row :
  In row (fst (compute_summary df start_date end_date selected)) ->
  ((0 < s_transactions row)%nat ->
   AOV row = Fin (s_sales_value row / Qc_of_nat (s_transactions row))) /\
  (s_transactions row = 0%nat -> AOV row = Fin 0) /\
  (exists q, AOV row = Fin q).
Proof.
  intro Hin. apply summary_row in Hin. destruct Hin as (k & _ & ->).
  rewrite AOV_with_AOV. unfold aov_of. cbn [s_transactions s_sales_value with_AOV].
  destruct (g_transactions _) eqn:E.
  - repeat split; [lia | eauto].
  - repeat split; [discriminate | eauto].
Qed.

(** ** C7: nothing selected *)

(** C7. On the empty frame, and on any frame of which the filter keeps no
    row, [compute_summary] returns the empty summary and totals that are
    all zero, whatever the filter. *)
Theorem nothing_selected_gives_zero_totals :
  (forall start_date end_date selected,
     compute_summary [] start_date end_date selected = ([], zero_totals)) /\
  (forall df start_date end_date selected,
     selected_rows df start_date end_date selected = [] ->
     compute_summary df start_date end_date selected = ([], zero_totals)).
Proof.
  split; [|exact no_rows_no_summary].
  intros start_date end_date selected. apply no_rows_no_summary.
  destruct start_date, end_date, selected as [[|]|]; reflexivity.
Qed.

(** ** C10: what a transaction count counts *)

(** C10. The transaction count of a summary row is the number of selected
    rows of its category whose [id] is not null; it is at most, and for
    some frame strictly less than, the number of selected rows of the
    category. *)
Theorem transactions_count_non_null_ids :
  (forall df start_date end_date selected row,
     let d := selected_rows df start_date end_date selected in
     In row (fst (compute_summary df start_date end_date selected)) ->
     s_transactions row =
       length (filter (fun r => notnull (id r))
                 (filter (in_category (s_category row)) d)) /\
     (s_transactions row <= length (filter (in_category (s_category row)) d))%nat) /\
  (exists df row,
     In row (fst (compute_summary df None None None)) /\
     (s_transactions row <
      length (filter (in_category (s_category row))
                (selected_rows df None None None)))%nat).
Proof.
  split.
  - intros df start_date end_date selected row d Hin.
    apply summary_row in Hin. destruct Hin as (k & _ & ->).
    cbn [s_transactions s_category with_AOV aggregate g_transactions g_category].
    split; [reflexivity | apply filter_length_le].
  - exists missing_id, (with_AOV (aggregate missing_id "A")).
    split.
    + unfold compute_summary. cbn [fst].
      change (groupby_category (selected_rows missing_id None None None))
        with [aggregate missing_id "A"].
      rewrite sort_values_single. left. reflexivity.
    + vm_compute. lia.
Qed.

(** ** C5: the date filter *)

Lemma filter_dates_within df start_date end_date :
  filter_dates df start_date end_date = filter (within start_date end_date) df.
Proof.
  unfold filter_dates.
  destruct start_date as [s|], end_date as [e|].
  - induction df as [|r df IH]; [reflexivity|].
    simpl. unfold on_or_after at 1, within at 1.
    destruct (order_date r) as [t|] eqn:Ht.
    + destruct (s <=? t)%Z; simpl.
      * unfold on_or_before at 1. rewrite Ht.
        destruct (t <=? e)%Z; now rewrite IH.
      * exact IH.
    + exact IH.
  - apply filter_ext. intro r. unfold on_or_after, within.
    now destruct (order_date r).
  - apply filter_ext. intro r. unfold on_or_before, within.
    now destruct (order_date r).
  - induction df as [|r df IH]; [reflexivity|].
    change (r :: df = r :: filter (within None None) df).
    now f_equal.
Qed.

(** C5. The rows that survive lines 30-33 are exactly the rows whose
    order date lies between the supplied bounds, both inclusive, in their
    original order.  A row with a null date fails every supplied bound,
    and a bound that is not supplied excludes no row.  The summary is
    computed from these rows. *)
Theorem date_filter_is_inclusive_range df start_date end_date :
  filter_dates df start_date end_date = filter (within start_date end_date) df /\
  (forall r,
     In r (filter_dates df start_date end_date) <->
     In r df /\
     (forall s, start_date = Some s ->
        exists t, order_date r = Some t /\ (s <= t)%Z) /\
     (forall e, end_date = Some e ->
        exists t, order_date r = Some t /\ (t <= e)%Z)) /\
  filter_dates df None None = df /\
  (forall selected,
     compute_summary df start_date end_date selected =
     compute_summary (filter (within start_date end_date) df) None None selected).
Proof.
  split; [apply filter_dates_within|].
  split.
  - intro r. rewrite filter_dates_within, filter_In.
    unfold within.
    destruct start_date as [s|], end_date as [e|], (order_date r) as [t|];
      rewrite ?andb_true_iff, ?Z.leb_le;
      (split; [intros [Hin H]; split; [exact Hin|]; split;
                 intros b Hb; try discriminate; try (injection Hb as <-);
                 try (eexists; split; [reflexivity | tauto])
              | intros (Hin & Hs & He); split; [exact Hin|];
                try (destruct (Hs _ eq_refl) as (t' & Ht' & Hle));
                try (destruct (He _ eq_refl) as (t'' & Ht'' & Hle'));
                try discriminate;
                try (injection Ht' as <-); try (injection Ht'' as <-);
                auto]).
  - split; [reflexivity|].
    intro selected. unfold compute_summary, selected_rows.
    now rewrite filter_dates_within.
Qed.

End Claims.

(** ** The totals in terms of the selected rows *)

Lemma isin_cons k ks r : isin (k :: ks) r = in_category k r || isin ks r.
Proof.
  unfold isin, in_category. now destruct (category r).
Qed.

Lemma in_category_not_isin k ks r :
  ~ In k ks -> in_category k r = true -> isin ks r = false.
Proof.
  unfold isin, in_category. intros Hk.
  destruct (category r) as [c|]; [|discriminate].
  intro E. apply String.eqb_eq in E. subst c.
  destruct (existsb (String.eqb k) ks) eqn:Ex; [|reflexivity].
  apply existsb_exists in Ex. destruct Ex as (x & Hx & E).
  apply String.eqb_eq in E. now subst x.
Qed.

Lemma Qsum_filter_either (f : Row -> Qc) (p q : Row -> bool) (d : DataFrame) :
  (forall r, p r = true -> q r = false) ->
  Qsum (map f (filter (fun r => p r || q r) d))
  = Qsum (map f (filter p d)) + Qsum (map f (filter q d)).
Proof.
  intro Hpq. induction d as [|r d IH]; simpl.
  - now rewrite Qcplus_0_l.
  - destruct (p r) eqn:Hp; simpl.
    + rewrite (Hpq r Hp), IH. now rewrite Qcplus_assoc.
    + destruct (q r); simpl; rewrite IH; [|reflexivity].
      rewrite !Qcplus_assoc. f_equal. apply Qcplus_comm.
Qed.

Lemma count_filter_either (g p q : Row -> bool) (d : DataFrame) :
  (forall r, p r = true -> q r = false) ->
  length (filter g (filter (fun r => p r || q r) d))
  = (length (filter g (filter p d)) + length (filter g (filter q d)))%nat.
Proof.
  intro Hpq. induction d as [|r d IH]; simpl; [reflexivity|].
  destruct (p r) eqn:Hp; simpl.
  - rewrite (Hpq r Hp). destruct (g r); simpl; lia.
  - destruct (q r); simpl; [destruct (g r); simpl|]; lia.
Qed.

Lemma Qsum_by_keys (f : Row -> Qc) (ks : list string) (d : DataFrame) :
  NoDup ks ->
  Qsum (map (fun k => Qsum (map f (filter (in_category k) d))) ks)
  = Qsum (map f (filter (isin ks) d)).
Proof.
  induction 1 as [|k ks Hk Hnd IH]; simpl.
  - induction d as [|r d IHd]; [reflexivity|].
    simpl. unfold isin at 1. now destruct (category r).
  - rewrite IH, (filter_ext _ _ (isin_cons k ks)).
    symmetry. apply Qsum_filter_either.
    intros r. now apply in_category_not_isin.
Qed.

Lemma count_by_keys (g : Row -> bool) (ks : list string) (d : DataFrame) :
  NoDup ks ->
  nat_sum (map (fun k => length (filter g (filter (in_category k) d))) ks)
  = length (filter g (filter (isin ks) d)).
Proof.
  induction 1 as [|k ks Hk Hnd IH]; simpl.
  - induction d as [|r d IHd]; [reflexivity|].
    simpl. unfold isin at 1. now destruct (category r).
  - rewrite IH, (filter_ext _ _ (isin_cons k ks)).
    symmetry. apply count_filter_either.
    intros r. now apply in_category_not_isin.
Qed.

(** The rows of a frame that fall in one of its groups are the rows that
    have a label. *)
Lemma isin_group_keys (d : DataFrame) :
  filter (isin (group_keys d)) d = filter (fun r => notnull (category r)) d.
Proof.
  apply filter_ext_in. intros r Hr. unfold isin, notnull.
  destruct (category r) as [c|] eqn:Hc; [|reflexivity].
  apply existsb_exists. exists c. split; [|apply String.eqb_refl].
  apply (keys_by_In _ String.compare string_compare_eq). eauto.
Qed.

Lemma group_keys_NoDup (d : DataFrame) : NoDup (group_keys d).
Proof.
  apply (sorted_keys_NoDup _ String.compare string_compare_eq).
  apply (keys_by_sorted _ String.compare string_compare_eq
           String.compare_antisym string_compare_trans).
Qed.

(** The totals are the sums over the selected rows that have a category
    label, and the transaction total counts those of them that have an
    id. *)
Theorem totals_of_selected_rows (sorter : SortValues)
    df start_date end_date selected :
  let rows := filter (fun r => notnull (category r))
                (selected_rows df start_date end_date selected) in
  let totals := snd (compute_summary df start_date end_date selected) in
  total_sales totals = Qsum (map sales_value rows) /\
  total_profit totals = Qsum (map net_profit rows) /\
  transactions totals = length (filter (fun r => notnull (id r)) rows).
Proof.
  cbv zeta. rewrite totals_of_groups.
  cbn [total_sales total_profit transactions].
  unfold groupby_category. rewrite !map_map.
  cbn [g_sales_value g_net_profit g_transactions aggregate].
  rewrite <- isin_group_keys.
  split; [apply Qsum_by_keys, group_keys_NoDup|].
  split; [apply Qsum_by_keys, group_keys_NoDup|].
  apply count_by_keys, group_keys_NoDup.
Qed.

(** ** The scenarios of the specification *)

Lemma scenario_all_categories (sorter : SortValues) :
  map shown (fst (compute_summary scenario (Some (day 19358)) (Some (day 19722)) None))
  = [("B", 200, 50, 1%nat, 200); ("A", 150, 100, 2%nat, 75)]%Q /\
  shown_totals (snd (compute_summary scenario (Some (day 19358)) (Some (day 19722)) None))
  = (350, 150, 275 # 2, 3%nat)%Q.
Proof.
  split.
  - unfold compute_summary; cbn [fst].
    change (groupby_category _)
      with [aggregate scenario "A"; aggregate scenario "B"].
    rewrite sort_values_two; [reflexivity|].
    apply Qc_ltb_true. reflexivity.
  - rewrite totals_of_groups. reflexivity.
Qed.

Lemma scenario_category_A (sorter : SortValues) :
  map shown (fst (compute_summary scenario None None (Some ["A"])))
  = [("A", 150, 100, 2%nat, 75)]%Q /\
  shown_totals (snd (compute_summary scenario None None (Some ["A"])))
  = (150, 100, 75, 2%nat)%Q.
Proof.
  split.
  - unfold compute_summary; cbn [fst].
    change (groupby_category _)
      with [aggregate (filter (isin ["A"]) scenario) "A"].
    rewrite sort_values_single. reflexivity.
  - rewrite totals_of_groups. reflexivity.
Qed.

(** ** The order of the summary *)

Lemma filter_perm {A : Type} (f : A -> bool) (l l' : list A) :
  Permutation l l' -> Permutation (filter f l) (filter f l').
Proof.
  induction 1 as [|x l l' _ IH|x y l|l l' l'' _ IH1 _ IH2]; simpl.
  - constructor.
  - destruct (f x); [now constructor | exact IH].
  - destruct (f x), (f y); try reflexivity. apply perm_swap.
  - now transitivity (filter f l').
Qed.

Lemma selected_rows_perm df df' start_date end_date selected :
  Permutation df df' ->
  Permutation (selected_rows df start_date end_date selected)
              (selected_rows df' start_date end_date selected).
Proof.
  intro Hp. unfold selected_rows, filter_categories, filter_dates.
  destruct start_date, end_date, selected as [[|c cs]|];
    repeat apply filter_perm; exact Hp.
Qed.

Lemma aggregate_perm d d' k :
  Permutation d d' -> aggregate d k = aggregate d' k.
Proof.
  intro Hp. unfold aggregate.
  pose proof (filter_perm (in_category k) _ _ Hp) as Hf.
  f_equal.
  - now apply Qsum_perm, Permutation_map.
  - now apply Qsum_perm, Permutation_map.
  - now apply Permutation_length, filter_perm.
Qed.

(** The groups do not depend on the order of the rows. *)
Lemma groupby_category_perm d d' :
  Permutation d d' -> groupby_category d = groupby_category d'.
Proof.
  intro Hp. unfold groupby_category, group_keys.
  rewrite (keys_by_perm _ String.compare string_compare_eq
             String.compare_antisym string_compare_trans category d d' Hp).
  apply map_ext. intro k. now apply aggregate_perm.
Qed.

Lemma descending_with_AOV (l : list Group) :
  descending g_sales_value l -> descending s_sales_value (map with_AOV l).
Proof.
  unfold descending. induction 1 as [|g l Hl IH Hg]; simpl; constructor.
  - exact IH.
  - rewrite Forall_map. exact Hg.
Qed.





Section Order.

Context {sorter : SortValues}.

(** The summary is in descending order of sales value; it is a
    rearrangement of the groups of the selected rows, which [groupby]
    hands to the sort in strictly ascending order of their labels; and it
    is the same for any two frames that hold the same rows in a different
    order.  Which of two categories of equal sales value comes first is
    left to the sort. *)
Theorem summary_descending_by_sales df start_date end_date selected :
  let summary := fst (compute_summary df start_date end_date selected) in
  let d := selected_rows df start_date end_date selected in
  descending s_sales_value summary /\
  Permutation (map with_AOV (groupby_category d)) summary /\
  StronglySorted (precedes String.compare) (map g_category (groupby_category d)) /\
  (forall df', Permutation df df' ->
     compute_summary df' start_date end_date selected =
     compute_summary df start_date end_date selected).
Proof.
  cbv zeta. unfold compute_summary; cbn [fst].
  split; [apply descending_with_AOV, sort_values_desc|].
  split; [apply Permutation_map, sort_values_perm|].
  split.
  - unfold groupby_category. rewrite map_map. cbn [g_category aggregate].
    rewrite map_id.
    apply (keys_by_sorted _ String.compare string_compare_eq
             String.compare_antisym string_compare_trans).
  - intros df' Hp.
    rewrite (groupby_category_perm _ _
               (selected_rows_perm df df' start_date end_date selected Hp)).
    reflexivity.
Qed.


End Order.

(** ** C9: the top-N truncation *)

Lemma topN_descending summary n :
  descending s_sales_value summary -> topN summary n = firstn n summary.
Proof.
  intro Hs. unfold topN, nlargest. now rewrite stable_sort_desc_id.
Qed.

(** C9. The summary of a frame without rows is empty, so that every
    [top_n] is at least its length, yet line 78 does not return this
    summary: it raises a [TypeError], for every filter and every
    [top_n], since the [sales_value] column of a frame without rows has
    the dtype object. *)
Theorem top_n_of_empty_dataset_raises (sorter : SortValues)
    (start_date end_date : option Timestamp) (selected : option (list string))
    (top_n : nat) :
  let summary := fst (compute_summary [] start_date end_date selected) in
  summary = [] /\
  (length summary <= top_n)%nat /\
  displayed_summary [] summary top_n = Raise TypeError /\
  displayed_summary [] summary top_n <> Ok summary.
Proof.
  cbv zeta.
  assert (H : fst (compute_summary [] start_date end_date selected) = []).
  { rewrite no_rows_no_summary; [reflexivity|].
    unfold selected_rows, filter_categories, filter_dates.
    now destruct selected as [[|c cs]|], start_date, end_date. }
  rewrite H. split; [reflexivity|]. split; [apply Nat.le_0_l|].
  split; [reflexivity | discriminate].
Qed.

(** ** C8: the top products *)

Lemma isin_true selected r :
  isin selected r = true <-> exists k, category r = Some k /\ In k selected.
Proof.
  unfold isin. destruct (category r) as [c|].
  - rewrite existsb_exists. split.
    + intros (k & Hk & E). apply String.eqb_eq in E. subst k. eauto.
    + intros (k & E & Hk). injection E as <-.
      exists c. split; [exact Hk | apply String.eqb_refl].
  - split; [discriminate | intros (k & E & _); discriminate].
Qed.

Lemma has_sku_true k r :
  has_sku k r = true <-> sku_id r = Some (fst k) /\ sku_name r = Some (snd k).
Proof.
  unfold has_sku, sku_key.
  destruct (sku_id r) as [i|], (sku_name r) as [n|];
    try (split; [discriminate | intros [? ?]; discriminate]).
  rewrite andb_true_iff, !String.eqb_eq. split.
  - intros [-> ->]. auto.
  - intros [E1 E2]. injection E1 as ->. injection E2 as ->. auto.
Qed.

Lemma rows_where_filter k d :
  rows_where (sold_as (fst k) (snd k)) d (filter (has_sku k) d).
Proof.
  induction d as [|r d IH]; simpl; [constructor|].
  destruct (has_sku k r) eqn:E.
  - apply rows_where_keep; [|exact IH]. now apply has_sku_true.
  - apply rows_where_skip; [|exact IH].
    intro H. apply has_sku_true in H. congruence.
Qed.

Lemma count_ids_filter (rows : DataFrame) :
  length (filter (fun r => notnull (id r)) rows) = count_ids rows.
Proof.
  induction rows as [|r rows IH]; simpl; [reflexivity|].
  destruct (id r); simpl; now rewrite IH.
Qed.

Lemma filter_map_same {A : Type} (p : A -> bool) (g : A -> A) (l : list A) :
  (forall a, p (g a) = p a) -> filter p (map g l) = map g (filter p l).
Proof.
  intro H. induction l as [|a l IH]; simpl; [reflexivity|].
  rewrite H. destruct (p a); simpl; now rewrite IH.
Qed.

Lemma keys_by_map_same {K : Type} (cmp : K -> K -> comparison)
    (key : Row -> option K) (g : Row -> Row) (d : DataFrame) :
  (forall r, key (g r) = key r) -> keys_by cmp key (map g d) = keys_by cmp key d.
Proof.
  intro H. induction d as [|r d IH]; simpl; [reflexivity|].
  now rewrite H, IH.
Qed.

(** The product groups do not read the order dates. *)
Lemma groupby_sku_dates f d :
  groupby_sku (map (with_order_date f) d) = groupby_sku d.
Proof.
  unfold groupby_sku, sku_keys.
  rewrite keys_by_map_same by reflexivity.
  apply map_ext. intro k. unfold aggregate_sku.
  rewrite (filter_map_same (has_sku k)) by reflexivity.
  rewrite (filter_map_same (fun r => notnull (id r))) by reflexivity.
  rewrite !map_map, length_map. reflexivity.
Qed.

Lemma filter_selected_dates f d selected :
  filter_selected (map (with_order_date f) d) selected =
  map (with_order_date f) (filter_selected d selected).
Proof.
  destruct selected as [|c cs]; [reflexivity|].
  apply filter_map_same. reflexivity.
Qed.

Section Products.

Context {sorter : SortValues}.

(** C8. The top-products table is computed from the whole frame, whatever
    its order dates: the rows are restricted to the selected categories
    when the selection is not empty, and to nothing otherwise; the kept
    rows are grouped by the pair of product id and product name, one
    group per pair that occurs; each group carries the sum of the sales
    values of its rows, which are the kept rows sold under its product id
    and name, and the count of their non-null ids (two sales of one pen
    for 100 and 50, the second without an id, give one product with
    sales 150 and one transaction); the groups are put in descending
    order of sales value and the first 10 at most are returned. *)
Theorem top_products_by_sales df selected :
  let prod := filter_selected df selected in
  let groups := groupby_sku prod in
  let result := top_products df selected in
  let pair_of := fun p => (p_sku_id p, p_sku_name p) in
  (filter_selected df [] = df /\
   forall c cs r,
     In r (filter_selected df (c :: cs)) <->
     In r df /\ exists k, category r = Some k /\ In k (c :: cs)) /\
  (forall f, top_products (map (with_order_date f) df) selected = result) /\
  (NoDup (map pair_of groups) /\
   forall k, In k (map pair_of groups) <->
             exists r, In r prod /\ sku_id r = Some (fst k) /\
                       sku_name r = Some (snd k)) /\
  (forall p, In p groups ->
     exists rows,
       rows_where (sold_as (p_sku_id p) (p_sku_name p)) prod rows /\
       (forall r, In r rows <->
                  In r prod /\ sku_id r = Some (p_sku_id p) /\
                  sku_name r = Some (p_sku_name p)) /\
       rows = filter (has_sku (pair_of p)) prod /\
       p_sales_value p = Qsum (map sales_value rows) /\
       p_transactions p = count_ids rows /\
       p_transactions p = length (filter (fun r => notnull (id r)) rows)) /\
  top_products missing_id []
  = [ {| p_sku_id := "p1"; p_sku_name := "pen";
         p_sales_value := money 150; p_transactions := 1 |} ] /\
  Permutation groups (sort_values p_sales_value groups) /\
  descending p_sales_value (sort_values p_sales_value groups) /\
  result = firstn 10 (sort_values p_sales_value groups) /\
  (length result <= 10)%nat.
Proof.
  cbv zeta.
  assert (Hkeys : map (fun p => (p_sku_id p, p_sku_name p))
                    (groupby_sku (filter_selected df selected))
                  = sku_keys (filter_selected df selected)).
  { unfold groupby_sku. rewrite map_map. cbn [p_sku_id p_sku_name aggregate_sku].
    rewrite <- (map_id (sku_keys _)) at 2. apply map_ext. now intros []. }
  split.
  { split; [reflexivity|].
    intros c cs r. cbn [filter_selected]. rewrite filter_In, isin_true.
    reflexivity. }
  split.
  { intro f. unfold top_products.
    now rewrite filter_selected_dates, groupby_sku_dates. }
  split.
  { rewrite Hkeys. split.
    - apply (sorted_keys_NoDup _ sku_compare sku_compare_eq).
      apply (keys_by_sorted _ sku_compare sku_compare_eq
               sku_compare_antisym sku_compare_trans).
    - intro k. unfold sku_keys.
      rewrite (keys_by_In _ sku_compare sku_compare_eq).
      split; intros (r & Hr & Hk); exists r; (split; [exact Hr|]).
      + unfold sku_key in Hk.
        destruct (sku_id r), (sku_name r); try discriminate.
        injection Hk as <-. auto.
      + destruct Hk as [Hi Hn]. unfold sku_key. rewrite Hi, Hn.
        destruct k; reflexivity. }
  split.
  { intros p Hp. unfold groupby_sku in Hp. apply in_map_iff in Hp.
    destruct Hp as ([i n] & <- & _).
    exists (filter (has_sku (i, n)) (filter_selected df selected)).
    cbn [p_sku_id p_sku_name p_sales_value p_transactions aggregate_sku fst snd].
    split; [apply (rows_where_filter (i, n))|].
    split; [intro r; rewrite filter_In, has_sku_true; reflexivity|].
    split; [reflexivity|]. split; [reflexivity|].
    split; [apply count_ids_filter | reflexivity]. }
  split.
  { unfold top_products. cbn [filter_selected].
    change (groupby_sku missing_id) with [aggregate_sku missing_id ("p1", "pen")].
    rewrite sort_values_single. cbn [firstn].
    unfold aggregate_sku. cbn [fst snd]. do 2 f_equal. }
  split; [apply sort_values_perm|].
  split; [apply sort_values_desc|].
  split; [reflexivity|].
  apply firstn_le_length.
Qed.

End Products.

(** ** C3: the loader *)

Lemma mapM_Forall2 {A B : Type} (f : A -> result B) (l : list A) (l' : list B) :
  mapM f l = Ok l' -> Forall2 (fun a b => f a = Ok b) l l'.
Proof.
  revert l'. induction l as [|a l IH]; simpl; intros l' H.
  - injection H as <-. constructor.
  - destruct (f a) as [b|e] eqn:Ha; simpl in H; [|discriminate].
    destruct (mapM f l) as [bs|e]; simpl in H; [|discriminate].
    injection H as <-. constructor; auto.
Qed.

Lemma mapM_length {A B : Type} (f : A -> result B) (l : list A) (l' : list B) :
  mapM f l = Ok l' -> length l' = length l.
Proof.
  intro H. apply mapM_Forall2, Forall2_length in H. now symmetry.
Qed.



Lemma map_fst_combine {A B : Type} (l : list A) (l' : list B) :
  length l' = length l -> map fst (combine l l') = l.
Proof.
  revert l'. induction l as [|a l IH]; intros [|b l'] H; simpl in *;
    try discriminate; [reflexivity|].
  f_equal. apply IH. now injection H.
Qed.

Lemma map_snd_combine {A B : Type} (l : list A) (l' : list B) :
  length l' = length l -> map snd (combine l l') = l'.
Proof.
  revert l'. induction l as [|a l IH]; intros [|b l'] H; simpl in *;
    try discriminate; [reflexivity|].
  f_equal. apply IH. now injection H.
Qed.



Section LoaderFacts.

Variable parse_number : string -> option Qc.
Variable parse_datetime : string -> option Timestamp.
Variable datetime_of_number : Qc -> option Timestamp.

Local Abbreviation loaded raw :=
  (fun rc : RawRow * Qc =>
     {| id := raw_id (fst rc);
        order_date := to_datetime_coerce parse_datetime datetime_of_number
                        (raw_order_date (fst rc));
        category := if negb (has_column raw "category")
                    then Some "Unknown" else raw_category (fst rc);
        sales_value := sales_or_zero (raw_after_discount (fst rc));
        cogs := snd rc;
        net_profit := sales_or_zero (raw_after_discount (fst rc)) - snd rc;
        sku_id := raw_sku_id (fst rc);
        sku_name := raw_sku_name (fst rc) |}).







Lemma to_numeric_column_length (col : list cell) (costs : list Qc) :
  to_numeric_column parse_number col = Ok costs -> length costs = length col.
Proof.
  destruct col as [|c col]; unfold to_numeric_column.
  - intro H. now injection H as <-.
  - destruct (forallb is_date (c :: col)).
    + intro H. injection H as <-. exact (length_map epoch_of (c :: col)).
    + intro H. apply mapM_length in H. rewrite H. apply length_map.
Qed.


(** Line 25: the subtraction passes exactly when every sales cell is
    blank or a number. *)
Lemma subtract_columns_spec (rows : list RawRow) (costs : list Qc) :
  length costs = length rows ->
  subtract_columns (map (fun r => fillna0 (raw_after_discount r)) rows) costs
  = if forallb (fun r => is_amount (raw_after_discount r)) rows
    then Ok (map (fun rc => sales_or_zero (raw_after_discount (fst rc)) - snd rc)
               (combine rows costs))
    else Raise TypeError.
Proof.
  revert costs. induction rows as [|r rows IH]; intros [|c costs] H;
    simpl in *; try discriminate; [reflexivity|].
  injection H as H. rewrite (IH costs H).
  destruct (raw_after_discount r) as [|q|s|t]; simpl; try reflexivity;
    now destruct (forallb _ rows).
Qed.

Lemma assemble_spec (raw : RawFrame) (rows : list RawRow) (costs : list Qc) :
  length costs = length rows ->
  forallb (fun r => is_amount (raw_after_discount r)) rows = true ->
  assemble rows
    (map (fun r => to_datetime_coerce parse_datetime datetime_of_number
                     (raw_order_date r)) rows)
    (if negb (has_column raw "category")
     then map (fun _ => Some "Unknown") rows
     else map raw_category rows)
    (map (fun r => fillna0 (raw_after_discount r)) rows)
    costs
    (map (fun rc => sales_or_zero (raw_after_discount (fst rc)) - snd rc)
       (combine rows costs))
  = map (loaded raw) (combine rows costs).
Proof.
  revert costs. induction rows as [|r rows IH]; intros [|c costs] H Ha;
    simpl in *; try discriminate.
  - now destruct (negb (has_column raw "category")).
  - injection H as H. apply andb_prop in Ha. destruct Ha as [Hr Ha].
    specialize (IH costs H Ha).
    destruct (negb (has_column raw "category")); simpl;
      rewrite IH; f_equal;
      destruct (raw_after_discount r); simpl in *; try reflexivity;
      discriminate.
Qed.

(** [load_data] once the two columns are there and the costs are
    converted. *)
Lemma load_data_spec (raw : RawFrame) (costs : list Qc) :
  has_column raw "after_discount" = true ->
  has_column raw "cogs" = true ->
  to_numeric_column parse_number (map raw_cogs (raw_rows raw)) = Ok costs ->
  load_data parse_number parse_datetime datetime_of_number raw
  = if forallb (fun r => is_amount (raw_after_discount r)) (raw_rows raw)
    then Ok (map (loaded raw) (combine (raw_rows raw) costs))
    else Raise TypeError.
Proof.
  intros Ha Hc Hcosts.
  assert (Hlen : length costs = length (raw_rows raw)).
  { apply to_numeric_column_length in Hcosts. now rewrite length_map in Hcosts. }
  unfold load_data, require_column. rewrite Ha, Hc. simpl.
  rewrite Hcosts. simpl.
  rewrite (subtract_columns_spec _ _ Hlen).
  destruct (forallb _ (raw_rows raw)) eqn:E; simpl; [|reflexivity].
  now rewrite (assemble_spec raw _ _ Hlen E).
Qed.

(** What a successful load returns. *)
Lemma load_data_Ok (raw : RawFrame) (df : DataFrame) :
  load_data parse_number parse_datetime datetime_of_number raw = Ok df ->
  exists costs,
    has_column raw "after_discount" = true /\
    has_column raw "cogs" = true /\
    to_numeric_column parse_number (map raw_cogs (raw_rows raw)) = Ok costs /\
    length costs = length (raw_rows raw) /\
    forallb (fun r => is_amount (raw_after_discount r)) (raw_rows raw) = true /\
    df = map (loaded raw) (combine (raw_rows raw) costs).
Proof.
  intro H.
  destruct (has_column raw "after_discount") eqn:Ha;
    [|unfold load_data, require_column in H; rewrite Ha in H; discriminate].
  destruct (has_column raw "cogs") eqn:Hc;
    [|unfold load_data, require_column in H; rewrite Ha, Hc in H; discriminate].
  destruct (to_numeric_column parse_number (map raw_cogs (raw_rows raw)))
    as [costs|e] eqn:Hcosts;
    [|unfold load_data, require_column in H; rewrite Ha, Hc in H; simpl in H;
      rewrite Hcosts in H; discriminate].
  rewrite (load_data_spec raw costs Ha Hc Hcosts) in H.
  exists costs.
  destruct (forallb _ (raw_rows raw)); [|discriminate].
  injection H as <-.
  repeat split; try reflexivity.
  apply to_numeric_column_length in Hcosts. now rewrite length_map in Hcosts.
Qed.


End LoaderFacts.



(** A blank label in a sheet that has the category column is loaded as a
    null label, and the row is then in no group, also when "Unknown" is
    among the selected categories. *)
Lemma blank_label_stays_null (sorter : SortValues) :
  exists row,
    load_data parse_digits no_date no_date_of_number sheet_blank_label = Ok [row] /\
    category row = None /\
    compute_summary [row] None None (Some ["Unknown"]) = ([], zero_totals) /\
    compute_summary [row] None None None = ([], zero_totals).
Proof.
  eexists. split; [reflexivity|]. split; [reflexivity|].
  split.
  - now apply no_rows_no_summary.
  - unfold compute_summary. cbn [selected_rows filter_categories filter_dates].
    change (groupby_category _) with (@nil Group).
    rewrite sort_values_nil. reflexivity.
Qed.

(** ** Instances of the theorems that have hypotheses *)

Lemma AOV_division_is_guarded_witness :
  In (with_AOV (aggregate no_id "A"))
     (fst (@compute_summary stable_sorter no_id None None None)) /\
  s_transactions (with_AOV (aggregate no_id "A")) = 0%nat /\
  AOV (with_AOV (aggregate no_id "A")) = Fin 0.
Proof.
  split; [left; reflexivity|].
  split; [reflexivity|].
  apply (@AOV_division_is_guarded stable_sorter no_id None None None
           (with_AOV (aggregate no_id "A")) (or_introl eq_refl)).
  reflexivity.
Defined.

Lemma nothing_selected_witness :
  selected_rows scenario (Some (day 20000)) None None = [] /\
  @compute_summary stable_sorter scenario (Some (day 20000)) None None
  = ([], zero_totals).
Proof.
  split; [reflexivity|].
  apply (proj2 (@nothing_selected_gives_zero_totals stable_sorter)).
  reflexivity.
Defined.

(** * Further properties of the code *)

(** ** The rows of the summary *)

Lemma filter_implied {A : Type} (p q : A -> bool) (l : list A) :
  (forall a, p a = true -> q a = true) -> filter p (filter q l) = filter p l.
Proof.
  intro H. induction l as [|a l IH]; simpl; [reflexivity|].
  destruct (q a) eqn:Hq; simpl.
  - now rewrite IH.
  - destruct (p a) eqn:Hp; [|exact IH].
    apply H in Hp. congruence.
Qed.

Lemma filter_both {A : Type} (p q : A -> bool) (l : list A) :
  filter (fun a => p a && q a) l = filter q (filter p l).
Proof.
  induction l as [|a l IH]; simpl; [reflexivity|].
  destruct (p a); simpl; [|exact IH].
  destruct (q a); now rewrite IH.
Qed.

Lemma descending_app {A : Type} (key : A -> Qc) (l1 l2 : list A) :
  descending key (l1 ++ l2) ->
  forall a b, In a l1 -> In b l2 -> key b <= key a.
Proof.
  unfold descending. induction l1 as [|x l1 IH]; simpl; intros Hs a b Ha Hb.
  - destruct Ha.
  - inversion Hs as [|? ? Hl Hx]; subst.
    destruct Ha as [<-|Ha]; [|now apply (IH Hl)].
    rewrite Forall_forall in Hx. apply Hx, in_or_app. now right.
Qed.

(** Two descending arrangements of the same rows carry the same column
    of keys. *)
Lemma descending_keys {A : Type} (key : A -> Qc) (l : list A) :
  descending key l -> StronglySorted (fun x y => y <= x) (map key l).
Proof.
  induction 1 as [|a l _ IH Ha]; simpl; constructor; [exact IH|].
  rewrite Forall_map. exact Ha.
Qed.

Lemma sorted_perm_eq (l l' : list Qc) :
  Permutation l l' ->
  StronglySorted (fun x y => y <= x) l ->
  StronglySorted (fun x y => y <= x) l' ->
  l = l'.
Proof.
  revert l'. induction l as [|a l IH]; intros l' Hp Hl Hl'.
  - apply Permutation_nil in Hp. now subst.
  - destruct l' as [|b l'];
      [apply Permutation_sym, Permutation_nil in Hp; discriminate|].
    inversion Hl as [|? ? Hl1 Ha]; subst.
    inversion Hl' as [|? ? Hl1' Hb]; subst.
    assert (Hab : a = b).
    { assert (Hin : In a (b :: l'))
        by (apply (Permutation_in a Hp); now left).
      assert (Hin' : In b (a :: l))
        by (apply (Permutation_in b (Permutation_sym Hp)); now left).
      rewrite Forall_forall in Ha, Hb.
      destruct Hin as [->|Hin]; [reflexivity|].
      destruct Hin' as [->|Hin']; [reflexivity|].
      apply Qcle_antisym; auto. }
    subst b. f_equal. apply IH; auto.
    now apply Permutation_cons_inv in Hp.
Qed.

Lemma descending_same_keys {A : Type} (key : A -> Qc) (l l' : list A) :
  Permutation l l' -> descending key l -> descending key l' ->
  map key l = map key l'.
Proof.
  intros Hp Hl Hl'. apply sorted_perm_eq.
  - now apply Permutation_map.
  - now apply descending_keys.
  - now apply descending_keys.
Qed.

(** Rows of distinct keys are in the order of their keys. *)
Lemma perm_same_keys_NoDup {A : Type} (key : A -> Qc) (l l' : list A) :
  Permutation l l' -> map key l = map key l' -> NoDup (map key l) -> l = l'.
Proof.
  revert l'. induction l as [|a l IH]; intros l' Hp Hk Hnd.
  - apply Permutation_nil in Hp. now subst.
  - destruct l' as [|b l']; [discriminate|].
    simpl in Hk. injection Hk as Hab Hk.
    inversion Hnd as [|? ? Hna Hnd']; subst.
    assert (a = b).
    { assert (Hin : In a (b :: l'))
        by (apply (Permutation_in a Hp); now left).
      destruct Hin as [->|Hin]; [reflexivity|].
      exfalso. apply Hna. rewrite Hk. now apply in_map. }
    subst b. f_equal. apply IH; auto.
    now apply Permutation_cons_inv in Hp.
Qed.

Section SummaryRows.

Context {sorter : SortValues}.

Lemma summary_categories_perm df start_date end_date selected :
  Permutation (group_keys (selected_rows df start_date end_date selected))
    (map s_category (fst (compute_summary df start_date end_date selected))).
Proof.
  unfold compute_summary; cbn [fst]. rewrite map_map.
  change (fun g => s_category (with_AOV g)) with g_category.
  rewrite <- (sort_values_perm Group g_sales_value).
  unfold groupby_category. rewrite map_map. cbn [g_category aggregate].
  now rewrite map_id.
Qed.

Lemma summary_descending df start_date end_date selected :
  descending s_sales_value (fst (compute_summary df start_date end_date selected)).
Proof.
  unfold compute_summary; cbn [fst].
  apply descending_with_AOV, sort_values_desc.
Qed.

Lemma summary_labels_In df start_date end_date selected k :
  In k (map s_category (fst (compute_summary df start_date end_date selected)))
  <-> exists r, In r (selected_rows df start_date end_date selected)
                /\ category r = Some k.
Proof.
  rewrite <- (keys_by_In _ String.compare string_compare_eq).
  split; apply Permutation_in;
    [symmetry|]; apply summary_categories_perm.
Qed.

Lemma summary_nil_iff df start_date end_date selected :
  fst (compute_summary df start_date end_date selected) = [] <->
  forall r, In r (selected_rows df start_date end_date selected) ->
            category r = None.
Proof.
  split.
  - intros Hnil r Hr. destruct (category r) as [k|] eqn:Hk; [|reflexivity].
    exfalso.
    assert (H : In k (map s_category
                 (fst (compute_summary df start_date end_date selected))))
      by (apply summary_labels_In; eauto).
    now rewrite Hnil in H.
  - intro Hnone.
    destruct (fst (compute_summary df start_date end_date selected))
      as [|row summary] eqn:E; [reflexivity|].
    exfalso.
    assert (H : In (s_category row) (map s_category
                 (fst (compute_summary df start_date end_date selected))))
      by (rewrite E; now left).
    apply summary_labels_In in H. destruct H as (r & Hr & Hk).
    rewrite (Hnone r Hr) in Hk. discriminate.
Qed.

(** The summary has one row for each category label that occurs among the
    selected rows and no other row; it is empty exactly when no selected
    row has a label; and when categories are selected, every category of
    the summary is one of them. *)
Theorem summary_has_one_row_per_label df start_date end_date selected :
  let d := selected_rows df start_date end_date selected in
  let labels := map s_category (fst (compute_summary df start_date end_date selected)) in
  NoDup labels /\
  (forall k, In k labels <-> exists r, In r d /\ category r = Some k) /\
  (fst (compute_summary df start_date end_date selected) = [] <->
   forall r, In r d -> category r = None) /\
  (forall c cs k, selected = Some (c :: cs) -> In k labels -> In k (c :: cs)).
Proof.
  cbv zeta.
  split; [|split; [|split]].
  - eapply Permutation_NoDup;
      [apply summary_categories_perm | apply group_keys_NoDup].
  - intro k. apply summary_labels_In.
  - apply summary_nil_iff.
  - intros c cs k -> Hk. apply summary_labels_In in Hk.
    destruct Hk as (r & Hr & Hk).
    unfold selected_rows, filter_categories in Hr.
    apply filter_In in Hr. destruct Hr as [_ Hr].
    apply isin_true in Hr. destruct Hr as (k' & Hk' & Hsel). congruence.
Qed.

(** On a frame that has rows, line 78 raises nothing.  The rows it keeps
    for display are [top_n] in number or, if the summary is shorter, all;
    they are in descending order of sales value and carry the sales
    values of the first [top_n] rows of the summary.  They are these
    first [top_n] rows, in the order of the summary, when [top_n] is
    smaller than the number of rows or no two rows have the same sales
    value; otherwise they are the rows of the summary in an order that
    the second sort decides among rows of equal sales value.  No row left
    out has a larger sales value than a row kept. *)
Theorem displayed_rows_are_the_top_rows r df start_date end_date selected top_n :
  let summary := fst (compute_summary (r :: df) start_date end_date selected) in
  exists displayed,
    displayed_summary (r :: df) summary top_n = Ok displayed /\
    length displayed = Nat.min top_n (length summary) /\
    descending s_sales_value displayed /\
    map s_sales_value displayed = firstn top_n (map s_sales_value summary) /\
    ((top_n < length summary)%nat -> displayed = firstn top_n summary) /\
    (NoDup (map s_sales_value summary) -> displayed = firstn top_n summary) /\
    ((length summary <= top_n)%nat -> Permutation summary displayed) /\
    (forall a b, In a displayed -> In b summary -> ~ In b displayed ->
       s_sales_value b <= s_sales_value a).
Proof.
  cbv zeta.
  pose proof (summary_descending (r :: df) start_date end_date selected) as Hs.
  set (summary := fst (compute_summary (r :: df) start_date end_date selected)) in *.
  unfold displayed_summary. cbn [sales_dtype].
  destruct (Nat.leb_spec (length summary) top_n) as [Hle|Hlt].
  - pose proof (sort_values_perm _ s_sales_value summary) as Hp.
    pose proof (sort_values_desc _ s_sales_value summary) as Hd.
    assert (Hlen : length (sort_values s_sales_value summary) = length summary)
      by (symmetry; now apply Permutation_length).
    assert (Hkeys : map s_sales_value (sort_values s_sales_value summary)
                    = map s_sales_value summary)
      by (symmetry; now apply descending_same_keys).
    rewrite (firstn_all2 (sort_values s_sales_value summary)) by lia.
    eexists. split; [reflexivity|].
    split; [rewrite Hlen; lia|].
    split; [exact Hd|].
    split; [rewrite firstn_all2 by (rewrite length_map; lia); exact Hkeys|].
    split; [intro; lia|].
    split.
    + intro Hnd. rewrite firstn_all2 by lia. symmetry.
      now apply (perm_same_keys_NoDup s_sales_value).
    + split; [intros _; exact Hp|].
      intros a b _ Hb Hnb. exfalso. apply Hnb.
      now apply (Permutation_in b Hp).
  - rewrite (topN_descending summary top_n Hs).
    eexists. split; [reflexivity|].
    split; [apply length_firstn|].
    split; [now apply descending_firstn|].
    split; [symmetry; apply firstn_map|].
    split; [reflexivity|].
    split; [reflexivity|].
    split; [intro; lia|].
    intros a b Ha Hb Hnb.
    apply (descending_app s_sales_value (firstn top_n summary) (skipn top_n summary));
      [now rewrite firstn_skipn | exact Ha |].
    rewrite <- (firstn_skipn top_n summary) in Hb.
    apply in_app_or in Hb. destruct Hb as [Hb|Hb]; [contradiction | exact Hb].
Qed.

(** On a frame that has rows, truncating the displayed rows once more
    with the same [top_n] raises nothing and returns the same rows with
    the same column of sales values; the rows are in the same order when
    no two of them have the same sales value, and otherwise the order
    among rows of equal sales value is the one the sort of the second
    truncation decides. *)
Theorem truncating_twice r df start_date end_date selected top_n :
  let summary := fst (compute_summary (r :: df) start_date end_date selected) in
  exists displayed again,
    displayed_summary (r :: df) summary top_n = Ok displayed /\
    displayed_summary (r :: df) displayed top_n = Ok again /\
    length again = length displayed /\
    Permutation displayed again /\
    map s_sales_value again = map s_sales_value displayed /\
    (NoDup (map s_sales_value displayed) -> again = displayed).
Proof.
  cbv zeta.
  set (summary := fst (compute_summary (r :: df) start_date end_date selected)).
  assert (H : exists displayed,
            displayed_summary (r :: df) summary top_n = Ok displayed /\
            (length displayed <= top_n)%nat /\
            descending s_sales_value displayed).
  { unfold displayed_summary. cbn [sales_dtype].
    destruct (length summary <=? top_n)%nat; eexists;
      (split; [reflexivity|]); (split; [apply firstn_le_length|]);
      apply descending_firstn.
    - apply sort_values_desc.
    - apply stable_sort_desc_sorted. }
  destruct H as (displayed & Hd & Hlen & Hdesc).
  exists displayed, (sort_values s_sales_value displayed).
  pose proof (sort_values_perm _ s_sales_value displayed) as Hp.
  split; [exact Hd|].
  split.
  { unfold displayed_summary. cbn [sales_dtype].
    rewrite (proj2 (Nat.leb_le _ _) Hlen).
    rewrite firstn_all2; [reflexivity|].
    rewrite <- (Permutation_length Hp). exact Hlen. }
  split; [symmetry; now apply Permutation_length|].
  split; [exact Hp|].
  assert (Hk : map s_sales_value displayed
               = map s_sales_value (sort_values s_sales_value displayed))
    by (apply descending_same_keys; [exact Hp | exact Hdesc | apply sort_values_desc]).
  split; [now symmetry|].
  intro Hnd. symmetry. now apply (perm_same_keys_NoDup s_sales_value).
Qed.

(** Once a date bound is supplied, the rows without an order date have no
    part in the result: the summary and the totals are those of the frame
    without these rows.  Without a bound they do have a part. *)
Theorem undated_rows_count_only_without_bounds :
  (forall df s end_date selected,
     compute_summary df (Some s) end_date selected
     = compute_summary (filter dated df) (Some s) end_date selected) /\
  (forall df start_date e selected,
     compute_summary df start_date (Some e) selected
     = compute_summary (filter dated df) start_date (Some e) selected) /\
  (exists df,
     transactions (snd (compute_summary df None None None)) <>
     transactions (snd (compute_summary (filter dated df) None None None))).
Proof.
  assert (Ha : forall s df, filter (on_or_after s) (filter dated df)
                            = filter (on_or_after s) df).
  { intros s df. apply filter_implied. intro r.
    unfold on_or_after, dated. now destruct (order_date r). }
  assert (Hb : forall e df, filter (on_or_before e) (filter dated df)
                            = filter (on_or_before e) df).
  { intros e df. apply filter_implied. intro r.
    unfold on_or_before, dated. now destruct (order_date r). }
  split; [|split].
  - intros df s end_date selected.
    unfold compute_summary, selected_rows, filter_dates. now rewrite Ha.
  - intros df start_date e selected.
    unfold compute_summary, selected_rows, filter_dates.
    destruct start_date as [s|]; [now rewrite Ha | now rewrite Hb].
  - exists undated_sale. rewrite !totals_of_groups. cbn [transactions].
    vm_compute. discriminate.
Qed.

End SummaryRows.

(** ** The monthly trend *)

Lemma series_min_None (col : list (option Z)) :
  series_min col = None <-> forall x, In x col -> x = None.
Proof.
  induction col as [|[t|] col IH]; simpl.
  - split; [intros _ x [] | reflexivity].
  - split.
    + destruct (series_min col); discriminate.
    + intro H. specialize (H (Some t) (or_introl eq_refl)). discriminate.
  - rewrite IH. split.
    + intros H x [<-|Hx]; auto.
    + intros H x Hx. apply H. now right.
Qed.

Lemma series_max_None (col : list (option Z)) :
  series_max col = None <-> forall x, In x col -> x = None.
Proof.
  induction col as [|[t|] col IH]; simpl.
  - split; [intros _ x [] | reflexivity].
  - split.
    + destruct (series_max col); discriminate.
    + intro H. specialize (H (Some t) (or_introl eq_refl)). discriminate.
  - rewrite IH. split.
    + intros H x [<-|Hx]; auto.
    + intros H x Hx. apply H. now right.
Qed.

Lemma series_min_least (col : list (option Z)) (m : Z) :
  series_min col = Some m ->
  In (Some m) col /\ forall t, In (Some t) col -> (m <= t)%Z.
Proof.
  revert m. induction col as [|[t|] col IH]; simpl; intros m Hm.
  - discriminate.
  - destruct (series_min col) as [m'|] eqn:E.
    + injection Hm as <-. destruct (IH m' eq_refl) as [Hin Hle].
      split.
      * destruct (Z.min_spec t m') as [[_ ->]|[_ ->]]; auto.
      * intros t' [Ht'|Ht']; [injection Ht' as <-; lia|].
        specialize (Hle t' Ht'). lia.
    + injection Hm as <-. split; [now left|].
      intros t' [Ht'|Ht']; [injection Ht' as <-; lia|].
      apply (proj1 (series_min_None col) E) in Ht'. discriminate.
  - destruct (IH m Hm) as [Hin Hle]. split; [now right|].
    intros t' [Ht'|Ht']; [discriminate | auto].
Qed.

Lemma series_max_greatest (col : list (option Z)) (m : Z) :
  series_max col = Some m ->
  In (Some m) col /\ forall t, In (Some t) col -> (t <= m)%Z.
Proof.
  revert m. induction col as [|[t|] col IH]; simpl; intros m Hm.
  - discriminate.
  - destruct (series_max col) as [m'|] eqn:E.
    + injection Hm as <-. destruct (IH m' eq_refl) as [Hin Hle].
      split.
      * destruct (Z.max_spec t m') as [[_ ->]|[_ ->]]; auto.
      * intros t' [Ht'|Ht']; [injection Ht' as <-; lia|].
        specialize (Hle t' Ht'). lia.
    + injection Hm as <-. split; [now left|].
      intros t' [Ht'|Ht']; [injection Ht' as <-; lia|].
      apply (proj1 (series_max_None col) E) in Ht'. discriminate.
  - destruct (IH m Hm) as [Hin Hle]. split; [now right|].
    intros t' [Ht'|Ht']; [discriminate | auto].
Qed.

Lemma months_between_In (lo hi m : Z) :
  In m (months_between lo hi) <-> (lo <= m <= hi)%Z.
Proof.
  unfold months_between. rewrite in_map_iff. split.
  - intros (i & <- & Hi). apply in_seq in Hi. lia.
  - intros Hm. exists (Z.to_nat (m - lo)). split; [lia|].
    apply in_seq. lia.
Qed.

Lemma months_between_NoDup (lo hi : Z) : NoDup (months_between lo hi).
Proof.
  unfold months_between. apply Finite.Injective_map_NoDup.
  - intros i j H. lia.
  - apply seq_NoDup.
Qed.

(** Sums over disjoint groups add up to the sum over the rows that are in
    some group. *)
Lemma Qsum_partition {K : Type} (has : K -> Row -> bool) (f : Row -> Qc)
    (ks : list K) (d : DataFrame) :
  NoDup ks ->
  (forall k k' r, has k r = true -> has k' r = true -> k = k') ->
  Qsum (map (fun k => Qsum (map f (filter (has k) d))) ks)
  = Qsum (map f (filter (fun r => existsb (fun k => has k r) ks) d)).
Proof.
  intros Hnd Hdis. induction Hnd as [|k ks Hk Hnd IH]; simpl.
  - induction d as [|r d IHd]; [reflexivity | exact IHd].
  - rewrite IH. symmetry. apply Qsum_filter_either.
    intros r Hr. destruct (existsb (fun k0 => has k0 r) ks) eqn:Ex; [|reflexivity].
    apply existsb_exists in Ex. destruct Ex as (k' & Hk' & Hr').
    rewrite (Hdis k k' r Hr Hr') in Hk. contradiction.
Qed.

Lemma filter_all {A : Type} (p : A -> bool) (l : list A) :
  (forall a, In a l -> p a = true) -> filter p l = l.
Proof.
  induction l as [|a l IH]; simpl; intro H; [reflexivity|].
  rewrite (H a (or_introl eq_refl)). f_equal. apply IH. auto.
Qed.

Lemma trend_rows_selected df s e selected :
  trend_rows df s e selected = selected_rows df (Some s) (Some e) (Some selected).
Proof.
  unfold trend_rows, selected_rows, filter_dates, filter_categories.
  rewrite filter_both. now destruct selected.
Qed.

Lemma trend_rows_dated df s e selected r :
  In r (trend_rows df s e selected) -> exists t, order_date r = Some t.
Proof.
  unfold trend_rows. intro Hr.
  assert (H : In r (filter (fun r => on_or_after s r && on_or_before e r) df)).
  { destruct selected; simpl in Hr; [exact Hr|].
    apply filter_In in Hr. tauto. }
  apply filter_In in H. destruct H as [_ H].
  unfold on_or_after in H. destruct (order_date r) as [t|]; [eauto|discriminate].
Qed.

(** The sums of the groups of [groupby("category")] add up to the sums
    over the rows that have a label. *)
Lemma groupby_sum (f : Row -> Qc) (d : DataFrame) :
  Qsum (map (fun k => Qsum (map f (filter (in_category k) d))) (group_keys d))
  = Qsum (map f (filter labelled d)).
Proof.
  rewrite Qsum_by_keys by apply group_keys_NoDup.
  now rewrite isin_group_keys.
Qed.

Lemma selected_labelled df start_date end_date c cs r :
  In r (selected_rows df start_date end_date (Some (c :: cs))) ->
  labelled r = true.
Proof.
  unfold selected_rows, filter_categories. intro Hr.
  apply filter_In in Hr. destruct Hr as [_ Hr].
  unfold isin in Hr. unfold labelled.
  now destruct (category r).
Qed.

Section TrendFacts.

Variable month_of : Timestamp -> Z.

Context {sorter : SortValues}.

Lemma resample_sum (f : Row -> Qc) (ts : DataFrame) (lo hi : Z) :
  (forall r, In r ts -> exists t, order_date r = Some t) ->
  series_min (map (row_month month_of) ts) = Some lo ->
  series_max (map (row_month month_of) ts) = Some hi ->
  Qsum (map (fun m => Qsum (map f (filter (in_month month_of m) ts)))
          (months_between lo hi))
  = Qsum (map f ts).
Proof.
  intros Hdated Hlo Hhi.
  rewrite (Qsum_partition (in_month month_of)).
  - f_equal. f_equal. apply filter_all. intros r Hr.
    destruct (Hdated r Hr) as (t & Ht).
    assert (Hin : In (Some (month_of t)) (map (row_month month_of) ts)).
    { apply in_map_iff. exists r. split; [|exact Hr].
      unfold row_month. now rewrite Ht. }
    apply existsb_exists. exists (month_of t). split.
    + apply months_between_In. split.
      * now apply (series_min_least _ _ Hlo).
      * now apply (series_max_greatest _ _ Hhi).
    + unfold in_month, row_month. rewrite Ht. simpl. apply Z.eqb_refl.
  - apply months_between_NoDup.
  - intros k k' r. unfold in_month.
    destruct (row_month month_of r); [|discriminate].
    rewrite !Z.eqb_eq. congruence.
Qed.

Lemma resample_monthly_sum (ts : DataFrame) :
  (forall r, In r ts -> exists t, order_date r = Some t) ->
  Qsum (map m_sales_value (resample_monthly month_of ts)) = Qsum (map sales_value ts) /\
  Qsum (map m_net_profit (resample_monthly month_of ts)) = Qsum (map net_profit ts).
Proof.
  intro Hdated. unfold resample_monthly.
  destruct (series_min (map (row_month month_of) ts)) as [lo|] eqn:Hlo.
  - destruct (series_max (map (row_month month_of) ts)) as [hi|] eqn:Hhi.
    + rewrite !map_map. cbn [m_sales_value m_net_profit].
      split; now apply resample_sum.
    + pose proof (proj1 (series_min_least _ _ Hlo)) as Hin.
      apply (proj1 (series_max_None _) Hhi) in Hin. discriminate.
  - assert (Hts : ts = []).
    { destruct ts as [|r ts]; [reflexivity|]. exfalso.
      destruct (Hdated r (or_introl eq_refl)) as (t & Ht).
      assert (H : row_month month_of r = None).
      { apply (proj1 (series_min_None _) Hlo). now left. }
      unfold row_month in H. rewrite Ht in H. discriminate. }
    subst ts. split; reflexivity.
Qed.

(** The chart of the monthly trend is drawn from the rows that the
    summary aggregates: the rows kept by lines 142-145 are the rows that
    [compute_summary] selects for the same range and categories.  With a
    category selected the chart is missing exactly when the summary is
    empty; with none selected a row without a label is charted although
    it is in no row of the summary. *)
Theorem trend_uses_the_selected_rows :
  (forall df s e selected,
     trend_rows df s e selected
     = selected_rows df (Some s) (Some e) (Some selected)) /\
  (forall df s e c cs,
     monthly_trend month_of df s e (c :: cs) = None <->
     fst (compute_summary df (Some s) (Some e) (Some (c :: cs))) = []) /\
  (exists df s e,
     monthly_trend month_of df s e [] <> None /\
     fst (compute_summary df (Some s) (Some e) (Some [])) = []).
Proof.
  split; [exact trend_rows_selected|]. split.
  - intros df s e c cs. unfold monthly_trend.
    rewrite trend_rows_selected, summary_nil_iff.
    destruct (selected_rows df (Some s) (Some e) (Some (c :: cs)))
      as [|r d] eqn:E.
    + split; [intros _ r [] | reflexivity].
    + split; [discriminate|]. intro H. exfalso.
      assert (Hl : labelled r = true).
      { apply (selected_labelled df (Some s) (Some e) c cs).
        rewrite E. now left. }
      unfold labelled in Hl. rewrite (H r (or_introl eq_refl)) in Hl.
      discriminate.
  - exists only_unlabelled, (day 19358), (day 19722). split.
    + discriminate.
    + apply summary_nil_iff. intros r [<-|[]]. reflexivity.
Qed.

(** The monthly sums of the trend add up to the sums over its rows; with
    a category selected they add up to the total sales and the total
    profit of the totals for the same range and categories. *)
Theorem monthly_sums_add_up df s e selected :
  let ts := trend_rows df s e selected in
  let months := resample_monthly month_of ts in
  let totals := snd (compute_summary df (Some s) (Some e) (Some selected)) in
  Qsum (map m_sales_value months) = Qsum (map sales_value ts) /\
  Qsum (map m_net_profit months) = Qsum (map net_profit ts) /\
  (forall c cs, selected = c :: cs ->
     Qsum (map m_sales_value months) = total_sales totals /\
     Qsum (map m_net_profit months) = total_profit totals).
Proof.
  cbv zeta.
  destruct (resample_monthly_sum (trend_rows df s e selected)
              (trend_rows_dated df s e selected)) as [Hs Hp].
  split; [exact Hs|]. split; [exact Hp|].
  intros c cs ->. rewrite Hs, Hp, totals_of_groups.
  cbn [total_sales total_profit].
  unfold groupby_category. rewrite !map_map.
  cbn [g_sales_value g_net_profit aggregate].
  rewrite !groupby_sum, trend_rows_selected.
  rewrite (filter_all labelled)
    by (intros r Hr; now apply (selected_labelled df (Some s) (Some e) c cs)).
  split; reflexivity.
Qed.

End TrendFacts.

(** ** The loader *)

Section LoadData.

Variable parse_number : string -> option Qc.
Variable parse_datetime : string -> option Timestamp.
Variable datetime_of_number : Qc -> option Timestamp.

(** When the sheet loads, the frame has one row for each row of the
    sheet, in the same order, with the id, the product id and the product
    name of that row, its sales value or 0 for a blank one, and a net
    profit that is the sales value less the cost. *)
Theorem load_data_keeps_the_rows (raw : RawFrame) (df : DataFrame) :
  load_data parse_number parse_datetime datetime_of_number raw = Ok df ->
  length df = length (raw_rows raw) /\
  map id df = map raw_id (raw_rows raw) /\
  map sku_id df = map raw_sku_id (raw_rows raw) /\
  map sku_name df = map raw_sku_name (raw_rows raw) /\
  map sales_value df
  = map (fun r => sales_or_zero (raw_after_discount r)) (raw_rows raw) /\
  Forall profit_consistent df.
Proof.
  intro H. apply load_data_Ok in H.
  destruct H as (costs & _ & _ & _ & Hlen & _ & ->).
  pose proof (map_fst_combine (raw_rows raw) costs Hlen) as Hfst.
  assert (Hcol : forall (B : Type) (f : RawRow -> B) (g : RawRow * Qc -> B),
            (forall rc, g rc = f (fst rc)) ->
            map g (combine (raw_rows raw) costs) = map f (raw_rows raw)).
  { intros B f g Hfg. rewrite <- Hfst at 2. rewrite map_map.
    apply map_ext. exact Hfg. }
  split; [|split; [|split; [|split; [|split]]]].
  - rewrite length_map, length_combine, Hlen. apply Nat.min_id.
  - rewrite map_map. now apply Hcol.
  - rewrite map_map. now apply Hcol.
  - rewrite map_map. now apply Hcol.
  - rewrite map_map. now apply Hcol.
  - rewrite Forall_forall. intros row Hrow.
    apply in_map_iff in Hrow. destruct Hrow as (rc & <- & _). reflexivity.
Qed.


End LoadData.

(** ** Profit, sales and cost *)

Lemma Qsum_profit (l : list Row) :
  Forall profit_consistent l ->
  Qsum (map net_profit l) = Qsum (map sales_value l) - Qsum (map cogs l).
Proof.
  induction 1 as [|r l Hr _ IH]; simpl.
  - ring.
  - rewrite IH, Hr. ring.
Qed.

Lemma Forall_filter_keeps {A : Type} (P : A -> Prop) (p : A -> bool) (l : list A) :
  Forall P l -> Forall P (filter p l).
Proof.
  rewrite !Forall_forall. intros H a Ha. apply filter_In in Ha. apply H, Ha.
Qed.

Lemma selected_rows_Forall (P : Row -> Prop) df start_date end_date selected :
  Forall P df -> Forall P (selected_rows df start_date end_date selected).
Proof.
  intro H. unfold selected_rows, filter_categories, filter_dates.
  destruct start_date, end_date, selected as [[|c cs]|];
    repeat apply Forall_filter_keeps; exact H.
Qed.

Section Profit.

Context {sorter : SortValues}.

(** On a frame whose rows have a net profit that is the sales value less
    the cost, as every loaded frame has, the net profit of each row of
    the summary is its sales value less the costs of the selected rows of
    its category, and the total profit is the total sales less the costs
    of the selected rows that have a label. *)
Theorem profit_is_sales_less_cost df start_date end_date selected :
  Forall profit_consistent df ->
  let d := selected_rows df start_date end_date selected in
  let totals := snd (compute_summary df start_date end_date selected) in
  (forall row, In row (fst (compute_summary df start_date end_date selected)) ->
     s_net_profit row
     = s_sales_value row
       - Qsum (map cogs (filter (in_category (s_category row)) d))) /\
  total_profit totals
  = total_sales totals - Qsum (map cogs (filter labelled d)).
Proof.
  intros Hc d totals.
  assert (Hd : Forall profit_consistent d)
    by now apply selected_rows_Forall.
  split.
  - intros row Hrow. apply summary_row in Hrow.
    destruct Hrow as (k & _ & ->).
    cbn [s_net_profit s_sales_value s_category with_AOV aggregate
         g_net_profit g_sales_value g_category].
    apply Qsum_profit. now apply Forall_filter_keeps.
  - subst totals. rewrite totals_of_groups.
    cbn [total_sales total_profit].
    unfold groupby_category. rewrite !map_map.
    cbn [g_sales_value g_net_profit aggregate].
    fold d. rewrite !groupby_sum.
    apply Qsum_profit. now apply Forall_filter_keeps.
Qed.

End Profit.

(** ** The default date range *)

Lemma ns_per_day_pos : (0 < ns_per_day)%Z.
Proof. reflexivity. Qed.

Lemma midnight_le (t : Timestamp) : (midnight t <= t)%Z.
Proof.
  unfold midnight. rewrite Z.mul_comm.
  apply Z.mul_div_le, ns_per_day_pos.
Qed.

Lemma midnight_mono (a b : Timestamp) : (a <= b)%Z -> (midnight a <= midnight b)%Z.
Proof.
  intro H. unfold midnight.
  apply Z.mul_le_mono_nonneg_r; [discriminate|].
  apply Z.div_le_mono; [apply ns_per_day_pos | exact H].
Qed.

Lemma notna_any_true {A : Type} (col : list (option A)) :
  notna_any col = true <-> exists t, In (Some t) col.
Proof.
  unfold notna_any. rewrite existsb_exists. split.
  - intros ([t|] & Hin & H); [eauto | discriminate].
  - intros (t & Hin). exists (Some t). auto.
Qed.

Lemma order_date_In (df : DataFrame) (t : Timestamp) :
  In (Some t) (map order_date df) <-> exists r, In r df /\ order_date r = Some t.
Proof.
  rewrite in_map_iff. split; intros (r & H1 & H2); eauto.
Qed.

Lemma date_bounds (df : DataFrame) :
  exists lo hi,
    min_date df = Some lo /\ max_date df = Some hi /\
    (forall r t, In r df -> order_date r = Some t -> (lo <= t <= hi)%Z) /\
    ((exists r, In r df /\ dated r = true) ->
     exists r, In r df /\ order_date r = Some hi).
Proof.
  unfold min_date, max_date. cbv zeta.
  destruct (notna_any (map order_date df)) eqn:Hany.
  - apply notna_any_true in Hany. destruct Hany as (t0 & Ht0).
    destruct (series_min (map order_date df)) as [lo|] eqn:Hlo.
    2:{ apply (proj1 (series_min_None _) Hlo) in Ht0. discriminate. }
    destruct (series_max (map order_date df)) as [hi|] eqn:Hhi.
    2:{ apply (proj1 (series_max_None _) Hhi) in Ht0. discriminate. }
    exists lo, hi. repeat split.
    + apply (series_min_least _ _ Hlo), order_date_In. eauto.
    + apply (series_max_greatest _ _ Hhi), order_date_In. eauto.
    + intros _. apply order_date_In, (series_max_greatest _ _ Hhi).
  - exists (day 18262), (day 19722).
    assert (Hnone : forall r t, In r df -> order_date r = Some t -> False).
    { intros r t Hr Ht.
      assert (H : notna_any (map order_date df) = true)
        by (apply notna_any_true; exists t; apply order_date_In; eauto).
      congruence. }
    repeat split; try (exfalso; eauto; fail).
    intros (r & Hr & Hd). unfold dated in Hd.
    destruct (order_date r) as [t|] eqn:Ht; [|discriminate].
    exfalso. eauto.
Qed.

(** The range that the date widget starts with.  The bounds of lines
    60-61 are never null and hold every order date of the frame between
    them.  The filter for this range keeps the rows whose date is not
    after midnight of the last day: it keeps every dated row when all
    dates are at midnight, and drops a row dated later on the last day. *)
Theorem default_date_range :
  (forall df, exists lo hi,
     min_date df = Some lo /\ max_date df = Some hi /\
     (forall r t, In r df -> order_date r = Some t -> (lo <= t <= hi)%Z) /\
     (forall r,
        In r (filter_dates df (fst (default_range df)) (snd (default_range df)))
        <-> In r df /\ exists t, order_date r = Some t /\ (t <= midnight hi)%Z) /\
     ((forall r t, In r df -> order_date r = Some t -> midnight t = t) ->
      filter_dates df (fst (default_range df)) (snd (default_range df))
      = filter dated df)) /\
  (exists df r,
     In r df /\ dated r = true /\
     ~ In r (filter_dates df (fst (default_range df)) (snd (default_range df)))).
Proof.
  split.
  - intro df. destruct (date_bounds df) as (lo & hi & Hlo & Hhi & Hb & Hlast).
    exists lo, hi. split; [exact Hlo|]. split; [exact Hhi|].
    split; [exact Hb|].
    unfold default_range. rewrite Hlo, Hhi. cbn [fst snd option_map].
    rewrite filter_dates_within.
    assert (Hw : forall r, In r df ->
              within (Some (midnight lo)) (Some (midnight hi)) r
              = match order_date r with
                | Some t => (t <=? midnight hi)%Z
                | None => false
                end).
    { intros r Hr. unfold within.
      destruct (order_date r) as [t|] eqn:Ht; [|reflexivity].
      assert (H : (midnight lo <= t)%Z).
      { pose proof (midnight_le lo). specialize (Hb r t Hr Ht). lia. }
      apply Z.leb_le in H. now rewrite H. }
    split.
    + intro r. rewrite filter_In. split.
      * intros [Hr H]. rewrite (Hw r Hr) in H. split; [exact Hr|].
        destruct (order_date r) as [t|]; [|discriminate].
        exists t. split; [reflexivity | now apply Z.leb_le].
      * intros (Hr & t & Ht & Hle). split; [exact Hr|].
        rewrite (Hw r Hr), Ht. now apply Z.leb_le.
    + intro Hmid. apply filter_ext_in. intros r Hr.
      rewrite (Hw r Hr). unfold dated.
      destruct (order_date r) as [t|] eqn:Ht; [|reflexivity].
      simpl. apply Z.leb_le.
      destruct Hlast as (r' & Hr' & Ht').
      { exists r. split; [exact Hr|]. unfold dated. now rewrite Ht. }
      rewrite (Hmid r' hi Hr' Ht').
      apply (Hb r t Hr Ht).
  - exists late_sale,
      (sale (Some 2%Z) (Some (day 19363 + 3600000000000)%Z) (Some "A") 50 10 "p2" "ink").
    split; [right; left; reflexivity|].
    split; [reflexivity|].
    rewrite filter_dates_within, filter_In.
    intros [_ H]. vm_compute in H. discriminate.
Qed.

(** ** The category options and the default selection *)

Lemma unique_In (l : list string) (x : string) : In x (unique l) <-> In x l.
Proof.
  induction l as [|y l IH]; simpl; [tauto|].
  rewrite filter_In, IH, negb_true_iff, String.eqb_neq.
  destruct (String.eqb_spec y x) as [->|Hne]; [tauto|].
  split; [tauto|]. intros [H|H]; [contradiction | right; split; auto].
Qed.

Lemma unique_NoDup (l : list string) : NoDup (unique l).
Proof.
  induction l as [|y l IH]; simpl; constructor.
  - rewrite filter_In, negb_true_iff, String.eqb_neq. tauto.
  - now apply NoDup_filter.
Qed.

Lemma insert_sorted_perm (x : string) (l : list string) :
  Permutation (x :: l) (insert_sorted x l).
Proof.
  induction l as [|y l IH]; simpl; [reflexivity|].
  destruct (String.leb x y); [reflexivity|].
  rewrite perm_swap. now apply perm_skip.
Qed.

Lemma sorted_perm (l : list string) : Permutation l (sorted l).
Proof.
  induction l as [|x l IH]; simpl; [constructor|].
  rewrite <- insert_sorted_perm. now apply perm_skip.
Qed.

Lemma leb_compare (a b : string) :
  String.leb a b = true <-> a = b \/ String.compare a b = Lt.
Proof.
  unfold String.leb. destruct (String.compare a b) eqn:E.
  - apply string_compare_eq in E. tauto.
  - tauto.
  - split; [discriminate|]. intros [->|H]; [|discriminate].
    assert (String.compare b b = Eq) by now apply string_compare_eq.
    congruence.
Qed.

Lemma leb_false_lt (a b : string) :
  String.leb a b = false -> String.compare b a = Lt.
Proof.
  unfold String.leb. rewrite (String.compare_antisym b a).
  destruct (String.compare a b); try discriminate. reflexivity.
Qed.

Lemma leb_trans (a b c : string) :
  String.leb a b = true -> String.leb b c = true -> String.leb a c = true.
Proof.
  rewrite !leb_compare. intros [->|H1] [->|H2]; auto.
  right. now apply string_compare_trans with b.
Qed.

Lemma insert_sorted_ascending (x : string) (l : list string) :
  StronglySorted (fun a b => String.leb a b = true) l ->
  StronglySorted (fun a b => String.leb a b = true) (insert_sorted x l).
Proof.
  induction l as [|y l IH]; simpl; intro Hs.
  - repeat constructor.
  - inversion Hs as [|? ? Hl Hy]; subst.
    destruct (String.leb x y) eqn:E.
    + constructor; [exact Hs|]. constructor; [exact E|].
      eapply Forall_impl; [|exact Hy].
      intros z Hz. now apply leb_trans with y.
    + constructor; [now apply IH|].
      rewrite <- (insert_sorted_perm x l).
      constructor; [|exact Hy].
      apply leb_compare. right. now apply leb_false_lt.
Qed.

Lemma sorted_ascending (l : list string) :
  StronglySorted (fun a b => String.leb a b = true) (sorted l).
Proof.
  induction l as [|x l IH]; simpl; [constructor|].
  now apply insert_sorted_ascending.
Qed.

Lemma ascending_NoDup_strict (l : list string) :
  StronglySorted (fun a b => String.leb a b = true) l -> NoDup l ->
  StronglySorted (precedes String.compare) l.
Proof.
  induction 1 as [|a l Hl IH Ha]; intro Hnd; constructor.
  - apply IH. now inversion Hnd.
  - inversion Hnd as [|? ? Hnotin _]; subst.
    rewrite Forall_forall in *. intros b Hb.
    destruct (proj1 (leb_compare a b) (Ha b Hb)) as [->|H]; [contradiction|exact H].
Qed.

Lemma all_categories_In (df : DataFrame) (k : string) :
  In k (all_categories df) <->
  exists r, In r df /\ fillna_unknown (category r) = k.
Proof.
  unfold all_categories.
  rewrite <- (Permutation_in' eq_refl (sorted_perm _)), unique_In, map_map.
  rewrite in_map_iff. split; intros (r & H1 & H2); eauto.
Qed.

Lemma all_categories_strict (df : DataFrame) :
  StronglySorted (precedes String.compare) (all_categories df).
Proof.
  unfold all_categories. apply ascending_NoDup_strict.
  - apply sorted_ascending.
  - eapply Permutation_NoDup; [apply sorted_perm | apply unique_NoDup].
Qed.

Lemma all_categories_nil (df : DataFrame) : all_categories df = [] <-> df = [].
Proof.
  split.
  - intro H. destruct df as [|r df]; [reflexivity|]. exfalso.
    assert (Hin : In (fillna_unknown (category r)) (all_categories (r :: df)))
      by (apply all_categories_In; exists r; split; [now left | reflexivity]).
    now rewrite H in Hin.
  - now intros ->.
Qed.

(** The options of the category widget are the labels of the frame, with
    "Unknown" for a row without a label, each once and in ascending
    order; there is none exactly when the frame has no row. *)
Theorem category_options_are_the_labels (df : DataFrame) :
  StronglySorted (precedes String.compare) (all_categories df) /\
  NoDup (all_categories df) /\
  (forall k, In k (all_categories df) <->
             exists r, In r df /\ fillna_unknown (category r) = k) /\
  (all_categories df = [] <-> df = []).
Proof.
  split; [apply all_categories_strict|].
  split.
  { apply (sorted_keys_NoDup _ String.compare string_compare_eq).
    apply all_categories_strict. }
  split; [apply all_categories_In | apply all_categories_nil].
Qed.

Lemma isin_all_categories (df : DataFrame) (r : Row) :
  In r df -> isin (all_categories df) r = labelled r.
Proof.
  intro Hr. unfold isin, labelled.
  destruct (category r) as [c|] eqn:Hc; [|reflexivity].
  apply existsb_exists. exists c. split; [|apply String.eqb_refl].
  apply all_categories_In. exists r. split; [exact Hr|]. now rewrite Hc.
Qed.

Lemma keys_by_labelled (d : DataFrame) :
  group_keys (filter labelled d) = group_keys d.
Proof.
  unfold group_keys, labelled.
  induction d as [|r d IH]; simpl; [reflexivity|].
  destruct (category r) as [c|] eqn:Hc; simpl; [|exact IH].
  now rewrite Hc, IH.
Qed.

(** The groups are those of the rows that have a label. *)
Lemma groupby_category_labelled (d : DataFrame) :
  groupby_category (filter labelled d) = groupby_category d.
Proof.
  unfold groupby_category. rewrite keys_by_labelled.
  apply map_ext. intro k. unfold aggregate.
  rewrite (filter_implied (in_category k) labelled); [reflexivity|].
  intro r. unfold in_category, labelled. now destruct (category r).
Qed.

Lemma filter_dates_incl df start_date end_date r :
  In r (filter_dates df start_date end_date) -> In r df.
Proof.
  rewrite filter_dates_within, filter_In. tauto.
Qed.

Section DefaultSelection.

Context {sorter : SortValues}.

(** With the default selection of the category widget, which is all of
    its options, the summary and the totals are those without any
    category restriction.  The table of top products is not: it is the
    table of the rows that have a label, so a product sold only in rows
    without a label is listed when no category is selected and is not
    listed under the default selection. *)
Theorem default_selection_keeps_labelled_rows :
  (forall df start_date end_date,
     compute_summary df start_date end_date (Some (all_categories df))
     = compute_summary df start_date end_date None) /\
  (forall df,
     top_products df (all_categories df) = top_products (filter labelled df) []) /\
  (exists df,
     length (top_products df (all_categories df)) = 1%nat /\
     length (top_products df []) = 2%nat).
Proof.
  split; [|split].
  - intros df start_date end_date.
    unfold compute_summary, selected_rows.
    cbn [filter_categories].
    destruct (all_categories df) as [|c cs] eqn:E; [reflexivity|].
    rewrite <- E.
    rewrite (filter_ext_in (isin (all_categories df)) labelled).
    + now rewrite groupby_category_labelled.
    + intros r Hr. apply isin_all_categories.
      now apply filter_dates_incl in Hr.
  - intro df. unfold top_products.
    assert (H : filter_selected df (all_categories df) = filter labelled df).
    { destruct (all_categories df) as [|c cs] eqn:E.
      - apply all_categories_nil in E. now subst df.
      - cbn [filter_selected]. rewrite <- E.
        apply filter_ext_in, isin_all_categories. }
    now rewrite H.
  - exists unlabelled_sale. unfold top_products.
    rewrite !length_firstn, !sort_values_length. split; reflexivity.
Qed.

End DefaultSelection.

(** ** Selecting categories *)

Lemma in_category_isin (selected : list string) (k : string) (r : Row) :
  In k selected -> in_category k r = true -> isin selected r = true.
Proof.
  intros Hk. unfold in_category, isin.
  destruct (category r) as [c|]; [|discriminate].
  intro E. apply String.eqb_eq in E. subst c.
  apply existsb_exists. exists k. split; [exact Hk | apply String.eqb_refl].
Qed.

Lemma aggregate_selected (selected : list string) (d : DataFrame) (k : string) :
  In k selected -> aggregate (filter (isin selected) d) k = aggregate d k.
Proof.
  intro Hk. unfold aggregate.
  rewrite (filter_implied (in_category k) (isin selected)); [reflexivity|].
  intro r. now apply in_category_isin.
Qed.

Section Selection.

Context {sorter : SortValues}.

Lemma summary_row_iff df start_date end_date selected row :
  In row (fst (compute_summary df start_date end_date selected)) <->
  exists k,
    In k (group_keys (selected_rows df start_date end_date selected)) /\
    row = with_AOV (aggregate (selected_rows df start_date end_date selected) k).
Proof.
  split; [apply summary_row|].
  intros (k & Hk & ->). unfold compute_summary; cbn [fst].
  apply in_map, sort_values_In. unfold groupby_category. now apply in_map.
Qed.

(** Selecting categories removes rows from the summary and changes none:
    the rows of the summary for a selection are the rows of the summary
    without a selection, for the same dates, whose category is
    selected. *)
Theorem category_selection_only_removes_rows df start_date end_date c cs row :
  In row (fst (compute_summary df start_date end_date (Some (c :: cs)))) <->
  In row (fst (compute_summary df start_date end_date None)) /\
  In (s_category row) (c :: cs).
Proof.
  rewrite !summary_row_iff.
  unfold selected_rows. cbn [filter_categories].
  set (d := filter_dates df start_date end_date).
  unfold group_keys.
  split.
  - intros (k & Hk & ->).
    apply (keys_by_In _ String.compare string_compare_eq) in Hk.
    destruct Hk as (r & Hr & Hc). apply filter_In in Hr.
    destruct Hr as [Hr Hsel].
    assert (Hin : In k (c :: cs)).
    { apply isin_true in Hsel. destruct Hsel as (k' & Hk' & Hin). congruence. }
    split; [|exact Hin].
    exists k. split.
    + apply (keys_by_In _ String.compare string_compare_eq). eauto.
    + now rewrite aggregate_selected.
  - intros ((k & Hk & ->) & Hin). cbn [s_category with_AOV aggregate g_category] in Hin.
    apply (keys_by_In _ String.compare string_compare_eq) in Hk.
    destruct Hk as (r & Hr & Hc).
    exists k. split.
    + apply (keys_by_In _ String.compare string_compare_eq).
      exists r. split; [|exact Hc]. apply filter_In. split; [exact Hr|].
      apply isin_true. eauto.
    + now rewrite aggregate_selected.
Qed.

End Selection.

(** ** Instances of the further properties that have hypotheses *)

Lemma load_data_keeps_the_rows_witness :
  load_data parse_digits no_date no_date_of_number sheet_blank_amounts
  = Ok loaded_blank_amounts /\
  length loaded_blank_amounts = length (raw_rows sheet_blank_amounts) /\
  map id loaded_blank_amounts = map raw_id (raw_rows sheet_blank_amounts) /\
  map sku_id loaded_blank_amounts = map raw_sku_id (raw_rows sheet_blank_amounts) /\
  map sku_name loaded_blank_amounts = map raw_sku_name (raw_rows sheet_blank_amounts) /\
  map sales_value loaded_blank_amounts
  = map (fun r => sales_or_zero (raw_after_discount r)) (raw_rows sheet_blank_amounts) /\
  Forall profit_consistent loaded_blank_amounts.
Proof.
  split; [reflexivity|].
  apply (load_data_keeps_the_rows parse_digits no_date no_date_of_number
           sheet_blank_amounts loaded_blank_amounts).
  reflexivity.
Defined.

Lemma profit_is_sales_less_cost_witness :
  Forall profit_consistent scenario /\
  total_profit (snd (@compute_summary stable_sorter scenario None None None))
  = total_sales (snd (@compute_summary stable_sorter scenario None None None))
    - Qsum (map cogs (filter labelled (selected_rows scenario None None None))).
Proof.
  assert (H : Forall profit_consistent scenario)
    by (repeat constructor).
  split; [exact H|].
  apply (@profit_is_sales_less_cost stable_sorter scenario None None None H).
Defined.


